(** * QuickSight resources of the AWS provider: composite identifiers,
      the data-source read poller and the delete operations.

    Shallow embedding of
      - aws/resource_aws_quicksight_data_source.go
      - aws/resource_aws_quicksight_template.go
    Go strings are byte strings, modelled as [string]; a Go pointer is an
    [option]; a Go [error] value is an [option error], [None] being nil. *)

From Stdlib Require Import ZArith Ascii String List Bool Lia.
From stdpp Require Import base strings gmap.
From Equations Require Import Equations.

Local Open Scope string_scope.

(** ** Go values used by the resources *)

(** Go's [error] interface, with the implementations these files meet:
    the typed error of the AWS SDK ([awserr.Error], a code and a message),
    the plain text error built by [fmt.Errorf], and the time-out reported by
    the retry helper. *)
Inductive error : Type :=
| awserrError (code message : string)
| errorString (text : string)
| TimeoutError.

(** [err.Error()], the text that the [%s] verb prints. *)
Definition Error (e : error) : string :=
  match e with
  | awserrError code message => code +:+ ": " +:+ message
  | errorString text => text
  | TimeoutError => "timeout while waiting for state to become 'success'"
  end.

(** [aws.StringValue]: the pointed-to string, or the empty string for nil. *)
Definition StringValue (p : option string) : string :=
  match p with
  | Some s => s
  | None => ""
  end.

(** ** strings.SplitN with a one-byte separator

    Both parsers call [strings.SplitN(id, "/", n)]; the separator is a single
    byte, so the search for it is the search for one character. *)

Definition slash : ascii := "/"%char.

(** The text before and after the first occurrence of [sep] in [s]. *)
Fixpoint Cut (sep : ascii) (s : string) : option (string * string) :=
  match s with
  | EmptyString => None
  | String c rest =>
      if Ascii.eqb c sep then Some (EmptyString, rest)
      else match Cut sep rest with
           | Some (before, after) => Some (String c before, after)
           | None => None
           end
  end.

(** [strings.SplitN(s, sep, n)] for [n >= 0]: no part for [n = 0]; otherwise
    at most [n] parts, the last one being the unsplit remainder. *)
Fixpoint SplitN (s : string) (sep : ascii) (n : nat) : list string :=
  match n with
  | O => []
  | S n' =>
      match n' with
      | O => [s]
      | S _ =>
          match Cut sep s with
          | None => [s]
          | Some (before, after) => before :: SplitN after sep n'
          end
      end
  end.

(** [strings.Count(s, sep)] for a one-byte separator. *)
Fixpoint Count (s : string) (sep : ascii) : nat :=
  match s with
  | EmptyString => O
  | String c rest => (if Ascii.eqb c sep then 1 else 0) + Count rest sep
  end.

(** [strings.Split(s, sep)]: Go computes it as [SplitN] with
    [Count(s, sep) + 1] parts. These are the '/'-separated segments of [s]. *)
Definition Split (s : string) (sep : ascii) : list string :=
  SplitN s sep (Count s sep + 1).

(** [parts[i]]. The parsers index [parts] only behind the short-circuit test
    [len(parts) < n], so the default is never what an index expression of the
    source evaluates to. *)
Definition index (parts : list string) (i : nat) : string := nth i parts "".

(** ** Composite identifiers *)

(** resource_aws_quicksight_data_source.go, lines 1211-1217. The Go triple
    [(string, string, error)] is returned as it is. *)
Definition resourceAwsQuickSightDataSourceParseID (id : string)
  : string * string * option error :=
  let parts := SplitN id slash 2 in
  if (length parts <? 2)%nat || String.eqb (index parts 0) ""
     || String.eqb (index parts 1) ""
  then ("", "",
        Some (errorString ("unexpected format of ID (" +:+ id
                +:+ "), expected AWS_ACCOUNT_ID/DATA_SOURCE_ID")))
  else (index parts 0, index parts 1, None).

(** resource_aws_quicksight_template.go, lines 580-586. *)
Definition resourceAwsQuickSightGroupParseID (id : string)
  : string * string * string * option error :=
  let parts := SplitN id slash 3 in
  if (length parts <? 3)%nat || String.eqb (index parts 0) ""
     || String.eqb (index parts 1) "" || String.eqb (index parts 2) ""
  then ("", "", "",
        Some (errorString ("unexpected format of ID (" +:+ id
                +:+ "), expected AWS_ACCOUNT_ID/NAMESPACE/GROUP_NAME")))
  else (index parts 0, index parts 1, index parts 2, None).

(** [fmt.Sprintf("%s/%s", a, b)], the identifier stored by the data-source
    create (line 586). *)
Definition Sprintf2 (a b : string) : string := a +:+ "/" +:+ b.

(** [fmt.Sprintf("%s/%s/%s", a, b, c)], the identifier stored by the group
    create (template file, line 487). *)
Definition Sprintf3 (a b c : string) : string := a +:+ "/" +:+ b +:+ "/" +:+ c.

(** A string holds no '/'. *)
Definition no_slash (s : string) : Prop := ~ In slash (list_ascii_of_string s).

(** ** Collaborators: the declarative framework and the remote service *)

(** [schema.ResourceData], restricted to what these operations touch: the
    resource identifier and string-valued attributes. *)
Record ResourceData : Type := mkResourceData {
  rd_id : string;
  rd_attrs : gmap string string
}.

Definition Id (d : ResourceData) : string := rd_id d.

(** [d.SetId(v)]: the framework sets the identifier and writes it to the
    attribute [id] as well. *)
Definition SetId (v : string) (d : ResourceData) : ResourceData :=
  {| rd_id := v; rd_attrs := <["id" := v]> (rd_attrs d) |}.

(** [d.Get(key).(string)]: the zero value when the attribute is not set. *)
Definition Get (key : string) (d : ResourceData) : string :=
  default "" (rd_attrs d !! key).

(** [d.GetOk(key)]: the value and whether it differs from the zero value. *)
Definition GetOk (key : string) (d : ResourceData) : string * bool :=
  let v := Get key d in (v, negb (String.eqb v "")).

(** [d.Set(key, p)] for a [*string]: a nil pointer leaves the attribute at
    its zero value. *)
Definition SetAttr (key : string) (p : option string) (d : ResourceData)
  : ResourceData :=
  {| rd_id := rd_id d;
     rd_attrs := match p with
                 | Some v => <[key := v]> (rd_attrs d)
                 | None => delete key (rd_attrs d)
                 end |}.

(** The part of [quicksight.DataSource] that the read operation inspects.
    [ds_DataSourceParameters] only records whether the pointer is nil. *)
Record DataSource : Type := mkDataSource {
  ds_Arn : option string;
  ds_DataSourceId : option string;
  ds_Status : option string;
  ds_DataSourceParameters : option unit
}.

Record DescribeDataSourceOutput : Type := mkDescribeDataSourceOutput {
  out_DataSource : option DataSource
}.

Record DataSourceInput : Type := mkDataSourceInput {
  in_AwsAccountId : option string;
  in_DataSourceId : option string
}.

Record GroupInput : Type := mkGroupInput {
  gin_AwsAccountId : option string;
  gin_Namespace : option string;
  gin_GroupName : option string
}.

(** What the remote service answers to a call: a response or an error
    (spec, section 6: each operation returns "a response or a typed not
    found error"). *)
Inductive reply (A : Type) : Type :=
| Response (out : A)
| Failure (e : error).
Arguments Response {A} out.
Arguments Failure {A} e.

(** The remote QuickSight service as the operations see it. The answer to a
    describe call may change from one call to the next, so it is given per
    call number; the other operations are called once. *)
Record Service : Type := mkService {
  describeDataSource : nat -> reply DescribeDataSourceOutput;
  createDataSource : DataSourceInput -> option error;
  deleteDataSource : DataSourceInput -> option error;
  deleteGroup : GroupInput -> option error
}.

(** The API client: the service and the number of describe calls made. *)
Record Conn : Type := mkConn {
  service : Service;
  describeCalls : nat
}.

(** [conn.DescribeDataSource(input)]. The SDK returns the pair
    [(output, error)]; on an error the output is the empty struct it
    allocated for the request. *)
Definition DescribeDataSource (c : Conn) (input : DataSourceInput)
  : option DescribeDataSourceOutput * option error * Conn :=
  let c' := {| service := service c; describeCalls := S (describeCalls c) |} in
  match describeDataSource (service c) (describeCalls c) with
  | Response out => (Some out, None, c')
  | Failure e => (Some (mkDescribeDataSourceOutput None), Some e, c')
  end.

(** Modelled from the spec: the constants [quicksight.ResourceStatus...] and
    [quicksight.ErrCode...] are declared in the AWS SDK, which is not among
    the sources. The spec names them: the statuses creation-in-progress,
    update-in-progress, creation-failed and update-failed, and the typed
    not-found error. *)
Definition ResourceStatusCreationInProgress : string := "CREATION_IN_PROGRESS".

(** Modelled from the spec: the status update-in-progress. *)
Definition ResourceStatusUpdateInProgress : string := "UPDATE_IN_PROGRESS".

(** Modelled from the spec: the status creation-failed. *)
Definition ResourceStatusCreationFailed : string := "CREATION_FAILED".

(** Modelled from the spec: the status update-failed. *)
Definition ResourceStatusUpdateFailed : string := "UPDATE_FAILED".

(** Modelled from the spec: the code of the typed not-found error. *)
Definition ErrCodeResourceNotFoundException : string := "ResourceNotFoundException".

(** [strings.Contains(s, substr)]. *)
Definition Contains (s substr : string) : bool :=
  match String.index 0 substr s with
  | Some _ => true
  | None => false
  end.

(** Modelled from the spec: [isAWSErr] is declared elsewhere in package [aws]
    and is not among the sources. It recognises the typed error of the remote
    service (spec, section 6) by its code; the message must contain
    [message], which every message does when [message] is empty, the only
    way these files call it. *)
Definition isAWSErr (err : option error) (code message : string) : bool :=
  match err with
  | Some (awserrError c m) => String.eqb c code && Contains m message
  | _ => false
  end.

(** ** The retry helper *)

(** [resource.RetryError]: an error and whether the attempt may be repeated. *)
Record RetryError : Type := mkRetryError {
  Err : error;
  Retryable : bool
}.

(** [resource.RetryableError(err)]: the attempt failed and may be repeated.
    The literal returns a [*resource.RetryError], nil for success. *)
Definition RetryableError (e : error) : option RetryError :=
  Some {| Err := e; Retryable := true |}.

(** [resource.NonRetryableError(err)]: the attempt failed for good. *)
Definition NonRetryableError (e : error) : option RetryError :=
  Some {| Err := e; Retryable := false |}.

(** [time.Duration] counts nanoseconds. *)
Definition Minute : Z := 60 * 1000000000.

(** What a run of the retry helper leaves behind. Go returns [run_err] only;
    the times of the attempts and the time elapsed at the return are kept
    for the statements about pacing. *)
Record RetryRun (W : Type) : Type := mkRetryRun {
  run_err : option error;
  run_state : W;
  run_attempts : list Z;
  run_elapsed : Z
}.
Arguments mkRetryRun {W}.
Arguments run_err {W}.
Arguments run_state {W}.
Arguments run_attempts {W}.
Arguments run_elapsed {W}.

Section Retry.

(** The state that the attempts act on. *)
Context {W : Type}.

(** The backoff interval, a positive duration. *)
Variable backoff : positive.

(** Modelled from the spec: [resource.Retry] belongs to the plugin SDK and
    is not among the sources. Section 4.1: invoke the operation; on a
    retryable outcome wait a backoff interval and re-invoke, until the
    maximum wait duration elapses, which is a time-out; any other outcome
    ends the loop at once, with success or with the error.
    [elapsed] is the time since the start; [attempts] lists the times of
    the earlier attempts, latest first. The loop ends because the waits
    that still fit in the time-out become fewer. *)
Equations? poll (timeout : Z) (f : W -> option RetryError * W)
    (elapsed : Z) (attempts : list Z) (w : W) : RetryRun W
    by wf (Z.to_nat ((timeout - elapsed) / Z.pos backoff + 1)) lt :=
  poll timeout f elapsed attempts w with f w => {
    | (None, w1) := mkRetryRun None w1 (elapsed :: attempts) elapsed
    | (Some rerr, w1) with Retryable rerr => {
        | false := mkRetryRun (Some (Err rerr)) w1 (elapsed :: attempts) elapsed
        | true with Z_lt_dec timeout (elapsed + Z.pos backoff) => {
            | left _ :=
                mkRetryRun (Some TimeoutError) w1 (elapsed :: attempts)
                  (elapsed + Z.pos backoff)
            | right _ :=
                poll timeout f (elapsed + Z.pos backoff) (elapsed :: attempts) w1
          }
      }
  }.
Proof.
  replace (timeout - (elapsed + Z.pos backoff))%Z
    with (timeout - elapsed + (-1) * Z.pos backoff)%Z by ring.
  rewrite Z.div_add by lia.
  assert (1 <= (timeout - elapsed) / Z.pos backoff)%Z
    by (apply Z.div_le_lower_bound; lia).
  lia.
Qed.

(** Modelled from the spec: [resource.Retry(timeout, f)] is the loop of
    section 4.1, [poll], started at time 0 with no attempt made. *)
Definition Retry (timeout : Z) (f : W -> option RetryError * W) (w : W)
  : RetryRun W :=
  poll timeout f 0 [] w.

End Retry.

(** ** The data-source operations *)

(** A Go function returns its error value, or panics (a nil pointer is
    dereferenced). *)
Inductive outcome : Type :=
| Returned (err : option error)
| Panicked.

(** The function literal handed to [resource.Retry] (lines 605-625). It reads
    [d.Id()] and [descOpts], and calls the client. Its [resp, err := ...]
    declares a [resp] of its own: the variable [resp] of the enclosing
    function (line 604) is not assigned here, so the literal hands nothing
    but its [*resource.RetryError] back. *)
Definition describeAttempt (d : ResourceData) (descOpts : DataSourceInput)
    (c : Conn) : option RetryError * Conn :=
  let '(resp, err, c1) := DescribeDataSource c descOpts in
  let early : option (option RetryError) :=
    match resp with
    | Some r =>
        match out_DataSource r with
        | Some ds =>
            let status := StringValue (ds_Status ds) in
            if String.eqb status ResourceStatusCreationInProgress
               || String.eqb status ResourceStatusUpdateInProgress
            then Some (RetryableError (errorString
                   ("Data Source operation still in progress (" +:+ Id d
                      +:+ "): " +:+ status)))
            else if String.eqb status ResourceStatusCreationFailed
                    || String.eqb status ResourceStatusUpdateFailed
            then Some (NonRetryableError (errorString
                   ("Data Source operation failed (" +:+ Id d
                      +:+ "): " +:+ status)))
            else None
        | None => None
        end
    | None => None
    end in
  match early with
  | Some result => (result, c1)
  | None =>
      match err with
      | Some e => (NonRetryableError e, c1)
      | None => (None, c1)
      end
  end.

(** The poller of the read operation: [resource.Retry(5*time.Minute, ...)]
    around the function literal (line 605). *)
Definition readPoller (backoff : positive) (d : ResourceData)
    (descOpts : DataSourceInput) (c : Conn) : RetryRun Conn :=
  Retry backoff (5 * Minute) (describeAttempt d descOpts) c.

(** Lines 636-640: the attributes copied from [resp]. Lines 640-810 fill the
    attribute [parameters] from [resp.DataSource.DataSourceParameters], whose
    first use dereferences it; the value of that attribute is not modelled. *)
Definition readAttributes (resp : option DescribeDataSourceOutput)
    (awsAccountId : string) (d : ResourceData) : outcome * ResourceData :=
  match resp with
  | None => (Panicked, d)
  | Some r =>
      match out_DataSource r with
      | None => (Panicked, d)
      | Some ds =>
          let d1 := SetAttr "arn" (ds_Arn ds) d in
          let d2 := SetAttr "id" (ds_DataSourceId ds) d1 in
          let d3 := SetAttr "aws_account_id" (Some awsAccountId) d2 in
          match ds_DataSourceParameters ds with
          | None => (Panicked, d3)
          | Some _ => (Returned None, d3)
          end
      end
  end.

(** resource_aws_quicksight_data_source.go, lines 591-811. *)
Definition resourceAwsQuickSightDataSourceRead (backoff : positive)
    (d : ResourceData) (c : Conn) : outcome * ResourceData * Conn :=
  let '(awsAccountId, dataSourceId, err) :=
    resourceAwsQuickSightDataSourceParseID (Id d) in
  match err with
  | Some e => (Returned (Some e), d, c)
  | None =>
      let descOpts := {| in_AwsAccountId := Some awsAccountId;
                         in_DataSourceId := Some dataSourceId |} in
      (* line 604: var resp *quicksight.DescribeDataSourceOutput *)
      let resp : option DescribeDataSourceOutput := None in
      let run := readPoller backoff d descOpts c in
      let err := run_err run in
      let c1 := run_state run in
      if isAWSErr err ErrCodeResourceNotFoundException ""
      then (Returned None, SetId "" d, c1)
      else
        match err with
        | Some e =>
            (Returned (Some (errorString
               ("Error describing QuickSight Data Source (" +:+ Id d
                  +:+ "): " +:+ Error e))), d, c1)
        | None =>
            let '(result, d1) := readAttributes resp awsAccountId d in
            (result, d1, c1)
        end
  end.


(** resource_aws_quicksight_data_source.go, lines 885-906. *)
Definition resourceAwsQuickSightDataSourceDelete (d : ResourceData) (c : Conn)
  : option error :=
  let '(awsAccountId, dataSourceId, err) :=
    resourceAwsQuickSightDataSourceParseID (Id d) in
  match err with
  | Some e => Some e
  | None =>
      let deleteOpts := {| in_AwsAccountId := Some awsAccountId;
                           in_DataSourceId := Some dataSourceId |} in
      match deleteDataSource (service c) deleteOpts with
      | Some e =>
          if isAWSErr (Some e) ErrCodeResourceNotFoundException "" then None
          else Some (errorString
                 ("Error deleting QuickSight Data Source " +:+ Id d
                    +:+ ": " +:+ Error e))
      | None => None
      end
  end.

(** resource_aws_quicksight_template.go, lines 556-578. *)
Definition resourceAwsQuickSightGroupDelete (d : ResourceData) (c : Conn)
  : option error :=
  let '(awsAccountID, namespace, groupName, err) :=
    resourceAwsQuickSightGroupParseID (Id d) in
  match err with
  | Some e => Some e
  | None =>
      let deleteOpts := {| gin_AwsAccountId := Some awsAccountID;
                           gin_Namespace := Some namespace;
                           gin_GroupName := Some groupName |} in
      match deleteGroup (service c) deleteOpts with
      | Some e =>
          if isAWSErr (Some e) ErrCodeResourceNotFoundException "" then None
          else Some (errorString
                 ("Error deleting QuickSight Group " +:+ Id d
                    +:+ ": " +:+ Error e))
      | None => None
      end
  end.

(** ** Vocabulary of the properties *)

(** The status that a reply reports: that of its data source, if any. *)
Definition reportedStatus (r : reply DescribeDataSourceOutput) : option string :=
  match r with
  | Response out =>
      match out_DataSource out with
      | Some ds => Some (StringValue (ds_Status ds))
      | None => None
      end
  | Failure _ => None
  end.

Definition inProgressStatus (status : string) : Prop :=
  status = ResourceStatusCreationInProgress
  \/ status = ResourceStatusUpdateInProgress.

Definition failedStatus (status : string) : Prop :=
  status = ResourceStatusCreationFailed \/ status = ResourceStatusUpdateFailed.

(** A reply that reports one of the two in-progress statuses. *)
Definition inProgress (r : reply DescribeDataSourceOutput) : Prop :=
  exists status, reportedStatus r = Some status /\ inProgressStatus status.

(** The client before its [j]-th describe call counted from [c]. *)
Definition connAfter (c : Conn) (j : nat) : Conn :=
  {| service := service c; describeCalls := describeCalls c + j |}.

(** The reply to the [j]-th describe call counted from [c]. *)
Definition fetched (c : Conn) (j : nat) : reply DescribeDataSourceOutput :=
  describeDataSource (service c) (describeCalls c + j).

(** The number of describe calls made between two states of the client. *)
Definition fetchCount (c c' : Conn) : nat := describeCalls c' - describeCalls c.

(** The times [start], [start + step], ... of [n] attempts. *)
Definition attemptTimes (start step : Z) (n : nat) : list Z :=
  map (fun i => (start + Z.of_nat i * step)%Z) (seq 0 n).

(** ** Scripted services for the examples *)

(** A reply that describes the data source [ds1] with the given status. *)
Definition describedAs (status : string) : reply DescribeDataSourceOutput :=
  Response {| out_DataSource := Some
    {| ds_Arn := Some "arn:aws:quicksight:us-east-1:111111111111:datasource/ds1";
       ds_DataSourceId := Some "ds1";
       ds_Status := Some status;
       ds_DataSourceParameters := Some tt |} |}.

(** A fresh client of a service that answers the describe calls with
    [replies], in this order, and with [later] from then on; [deleted] is its
    answer to the delete calls. The create call succeeds. *)
Definition scripted (replies : list (reply DescribeDataSourceOutput))
    (later : reply DescribeDataSourceOutput) (deleted : option error) : Conn :=
  {| service := {| describeDataSource := fun n => nth n replies later;
                   createDataSource := fun _ => None;
                   deleteDataSource := fun _ => deleted;
                   deleteGroup := fun _ => deleted |};
     describeCalls := 0 |}.

Definition notFound : error :=
  awserrError ErrCodeResourceNotFoundException "data source not found".

Definition throttled : error :=
  awserrError "ThrottlingException" "rate exceeded".

Definition exampleData : ResourceData :=
  {| rd_id := "111111111111/ds1"; rd_attrs := ∅ |}.

Definition exampleGroup : ResourceData :=
  {| rd_id := "111111111111/ns/g1"; rd_attrs := ∅ |}.

Definition exampleOpts : DataSourceInput :=
  {| in_AwsAccountId := Some "111111111111"; in_DataSourceId := Some "ds1" |}.

(** The data source is ready at the first describe call. *)
Definition readyAtOnce : Conn :=
  scripted [] (describedAs "CREATION_SUCCESSFUL") None.

(** The creation is in progress at the first call and has failed at the
    second. *)
Definition failsAfterOne : Conn :=
  scripted [describedAs "CREATION_IN_PROGRESS"] (describedAs "CREATION_FAILED") None.

(** An update is in progress at the first call; at the second the data
    source is gone. *)
Definition goneAfterOne : Conn :=
  scripted [describedAs "UPDATE_IN_PROGRESS"] (Failure notFound) None.

(** The creation stays in progress for ever. *)
Definition neverReady : Conn :=
  scripted [] (describedAs "CREATION_IN_PROGRESS") None.

(** One second, as a backoff interval. *)
Definition Second : positive := 1000000000.

(** ** The group operations

    resource_aws_quicksight_template.go, lines 492-554. The group of the
    remote service is read and updated through the same client; its calls
    are kept in a record of their own. *)

(** The part of [quicksight.Group] that the read copies. *)
Record Group : Type := mkGroup {
  grp_Arn : option string;
  grp_GroupName : option string;
  grp_Description : option string
}.

Record DescribeGroupOutput : Type := mkDescribeGroupOutput {
  gout_Group : option Group
}.

Record UpdateGroupInput : Type := mkUpdateGroupInput {
  ug_AwsAccountId : option string;
  ug_Namespace : option string;
  ug_GroupName : option string;
  ug_Description : option string
}.

(** The answers of the remote service to the group calls of the read and of
    the update. *)
Record GroupService : Type := mkGroupService {
  describeGroup : GroupInput -> reply DescribeGroupOutput;
  updateGroup : UpdateGroupInput -> option error
}.

(** [conn.DescribeGroup(input)], as the pair [(output, error)]; on an error
    the output is the empty struct allocated for the request. *)
Definition DescribeGroup (g : GroupService) (input : GroupInput)
  : option DescribeGroupOutput * option error :=
  match describeGroup g input with
  | Response out => (Some out, None)
  | Failure e => (Some (mkDescribeGroupOutput None), Some e)
  end.

(** resource_aws_quicksight_template.go, lines 492-523. [d.Set] is the one
    of the data-source read; whether the framework knows the key is outside
    the model. The first [d.Set] dereferences [resp.Group]. *)
Definition resourceAwsQuickSightGroupRead (d : ResourceData) (g : GroupService)
  : outcome * ResourceData :=
  let '(awsAccountID, namespace, groupName, err) :=
    resourceAwsQuickSightGroupParseID (Id d) in
  match err with
  | Some e => (Returned (Some e), d)
  | None =>
      let descOpts := {| gin_AwsAccountId := Some awsAccountID;
                         gin_Namespace := Some namespace;
                         gin_GroupName := Some groupName |} in
      let '(resp, err) := DescribeGroup g descOpts in
      if isAWSErr err ErrCodeResourceNotFoundException ""
      then (Returned None, SetId "" d)
      else
        match err with
        | Some e =>
            (Returned (Some (errorString
               ("Error describing QuickSight Group (" +:+ Id d +:+ "): "
                  +:+ Error e))), d)
        | None =>
            match resp with
            | None => (Panicked, d)
            | Some r =>
                match gout_Group r with
                | None => (Panicked, d)
                | Some grp =>
                    let d1 := SetAttr "arn" (grp_Arn grp) d in
                    let d2 := SetAttr "aws_account_id" (Some awsAccountID) d1 in
                    let d3 := SetAttr "group_name" (grp_GroupName grp) d2 in
                    let d4 := SetAttr "description" (grp_Description grp) d3 in
                    let d5 := SetAttr "namespace" (Some namespace) d4 in
                    (Returned None, d5)
                end
            end
        end
  end.

(** resource_aws_quicksight_template.go, lines 525-554. *)
Definition resourceAwsQuickSightGroupUpdate (d : ResourceData) (g : GroupService)
  : outcome * ResourceData :=
  let '(awsAccountID, namespace, groupName, err) :=
    resourceAwsQuickSightGroupParseID (Id d) in
  match err with
  | Some e => (Returned (Some e), d)
  | None =>
      let updateOpts :=
        {| ug_AwsAccountId := Some awsAccountID;
           ug_Namespace := Some namespace;
           ug_GroupName := Some groupName;
           ug_Description := match GetOk "description" d with
                             | (v, true) => Some v
                             | (_, false) => None
                             end |} in
      let err := updateGroup g updateOpts in
      if isAWSErr err ErrCodeResourceNotFoundException ""
      then (Returned None, SetId "" d)
      else
        match err with
        | Some e =>
            (Returned (Some (errorString
               ("Error updating QuickSight Group " +:+ Id d +:+ ": "
                  +:+ Error e))), d)
        | None => resourceAwsQuickSightGroupRead d g
        end
  end.

(** ** The ARN of a data source *)

(** resource_aws_quicksight_data_source.go, lines 1219-1221. *)
Definition quicksightDataSourceArn (awsRegion awsAccountId dataSourceId : string)
  : string :=
  "arn:aws:quicksight:" +:+ awsRegion +:+ ":" +:+ awsAccountId
    +:+ ":datasource/" +:+ dataSourceId.

(** A string holds no ':'. *)
Definition no_colon (s : string) : Prop :=
  ~ In ":"%char (list_ascii_of_string s).

(** A group service for the examples: the group [g1] of namespace [ns] is
    described; every other group is not found; updates succeed. *)
Definition exampleGroupService : GroupService :=
  {| describeGroup := fun input =>
       if String.eqb (StringValue (gin_GroupName input)) "g1"
       then Response {| gout_Group := Some
              {| grp_Arn := Some "arn:aws:quicksight:us-east-1:111111111111:group/ns/g1";
                 grp_GroupName := Some "g1";
                 grp_Description := None |} |}
       else Failure notFound;
     updateGroup := fun _ => None |}.

(** A group service whose calls all fail with an error that is not the
    not-found error. *)
Definition throttledGroupService : GroupService :=
  {| describeGroup := fun _ => Failure throttled;
     updateGroup := fun _ => Some throttled |}.

(** ** The request builders of the data source

    resource_aws_quicksight_data_source.go, lines 908-1209. The builders read
    attributes that are not plain strings: they get an [interface{}] from
    [d.Get] and assert its dynamic type. *)

(** The dynamic values that the builders meet behind [interface{}]: nil, a
    string, a bool, an int, an int64, a [[]interface{}], a [*schema.Set]
    (nil, or with its elements in the order of [List()]) and a
    [map[string]interface{}] (its entries; the first entry of a key counts). *)
#[local] Unset Elimination Schemes.
Inductive value : Type :=
| VNil
| VString (s : string)
| VBool (b : bool)
| VInt (n : Z)
| VInt64 (n : Z)
| VList (items : list value)
| VSet (items : option (list value))
| VMap (entries : list (string * value)).
#[local] Set Elimination Schemes.

(** [d.Get] on these attributes. *)
Definition RawData : Type := string -> value.

(** A computation that may panic. *)
Inductive res (A : Type) : Type :=
| Done (a : A)
| Panic.
Arguments Done {A} a.
Arguments Panic {A}.

#[global] Instance res_bind : MBind res :=
  fun A B f m => match m with
                 | Done a => f a
                 | Panic => Panic
                 end.

(** The type assertions of a value to [string], [bool], [int64],
    [*schema.Set] and [map[string]interface{}]: they panic on every other
    dynamic type, nil included. *)
Definition assertString (v : value) : res string :=
  match v with VString s => Done s | _ => Panic end.

Definition assertBool (v : value) : res bool :=
  match v with VBool b => Done b | _ => Panic end.

Definition assertInt64 (v : value) : res Z :=
  match v with VInt64 n => Done n | _ => Panic end.

Definition assertSet (v : value) : res (option (list value)) :=
  match v with VSet items => Done items | _ => Panic end.

Definition assertMap (v : value) : res (list (string * value)) :=
  match v with VMap entries => Done entries | _ => Panic end.

(** The method [List] of [*schema.Set], which dereferences its receiver. *)
Definition List_ (s : option (list value)) : res (list value) :=
  match s with
  | Some items => Done items
  | None => Panic
  end.

(** [v, ok := m[key]]. *)
Fixpoint mapLookup (m : list (string * value)) (key : string) : option value :=
  match m with
  | [] => None
  | (k, v) :: rest => if String.eqb k key then Some v else mapLookup rest key
  end.

(** [m[key]]: nil when the key is absent. *)
Definition mapIndex (m : list (string * value)) (key : string) : value :=
  match mapLookup m key with
  | Some v => v
  | None => VNil
  end.

(** The guard of the nested blocks: [v] is not nil and, asserted to be a
    [*schema.Set], is not the nil pointer. The elements of the set when the
    block is entered. *)
Definition guardedSet (v : value) : res (option (list value)) :=
  match v with
  | VNil => Done None
  | _ => assertSet v
  end.

Record SslProperties : Type := mkSslProperties {
  DisableSsl : option bool
}.

Record VpcConnectionProperties : Type := mkVpcConnectionProperties {
  VpcConnectionArn : option string
}.

Record CredentialPair : Type := mkCredentialPair {
  Username : option string;
  Password : option string
}.

Record DataSourceCredentials : Type := mkDataSourceCredentials {
  CredentialPair_ : option CredentialPair
}.

(** The loop of lines 1181-1189: the first element with the key
    [disable_ssl] decides. *)
Fixpoint sslPropertiesLoop (items : list value) : res (option SslProperties) :=
  match items with
  | [] => Done None
  | v :: rest =>
      sslProperties ← assertMap v;
      match mapLookup sslProperties "disable_ssl" with
      | Some v =>
          b ← assertBool v;
          Done (Some {| DisableSsl := Some b |})
      | None => sslPropertiesLoop rest
      end
  end.

(** resource_aws_quicksight_data_source.go, lines 1179-1193. *)
Definition resourceAwsQuickSightDataSourceSslProperties (d : RawData)
  : res (option SslProperties) :=
  match d "ssl_properties" with
  | VNil => Done None
  | v =>
      s ← assertSet v;
      items ← List_ s;
      sslPropertiesLoop items
  end.

(** The loop of lines 1197-1205. *)
Fixpoint vpcConnectionPropertiesLoop (items : list value)
  : res (option VpcConnectionProperties) :=
  match items with
  | [] => Done None
  | v :: rest =>
      vpcConnectionProperties ← assertMap v;
      match mapIndex vpcConnectionProperties "vpc_connection_arn" with
      | VNil => vpcConnectionPropertiesLoop rest
      | v =>
          arn ← assertString v;
          if String.eqb arn "" then vpcConnectionPropertiesLoop rest
          else Done (Some {| VpcConnectionArn := Some arn |})
      end
  end.

(** resource_aws_quicksight_data_source.go, lines 1195-1209. *)
Definition resourceAwsQuickSightDataSourceVpcConnectionProperties (d : RawData)
  : res (option VpcConnectionProperties) :=
  match d "vpc_connection_properties" with
  | VNil => Done None
  | v =>
      s ← assertSet v;
      items ← List_ s;
      vpcConnectionPropertiesLoop items
  end.

(** [if v, ok := m[key]; ok && v.(string) != ""]: the string to pass on. *)
Definition nonEmptyString (m : list (string * value)) (key : string)
  : res (option string) :=
  match mapLookup m key with
  | Some v =>
      s ← assertString v;
      Done (if String.eqb s "" then None else Some s)
  | None => Done None
  end.

(** Lines 914-929: the first element of the set [credential_pair] is
    returned; an empty set is passed over. *)
Definition credentialPairLoop (items : list value)
  : res (option DataSourceCredentials) :=
  match items with
  | [] => Done None
  | v :: _ =>
      credentialPairResource ← assertMap v;
      username ← nonEmptyString credentialPairResource "username";
      password ← nonEmptyString credentialPairResource "password";
      Done (Some {| CredentialPair_ :=
                      Some {| Username := username; Password := password |} |})
  end.

(** The loop of lines 910-931. *)
Fixpoint credentialsLoop (items : list value)
  : res (option DataSourceCredentials) :=
  match items with
  | [] => Done None
  | v :: rest =>
      credentials ← assertMap v;
      entered ← guardedSet (mapIndex credentials "credential_pair");
      match entered with
      | Some pairs =>
          found ← credentialPairLoop pairs;
          match found with
          | Some result => Done (Some result)
          | None => credentialsLoop rest
          end
      | None => credentialsLoop rest
      end
  end.

(** resource_aws_quicksight_data_source.go, lines 908-935. *)
Definition resourceAwsQuickSightDataSourceCredentials (d : RawData)
  : res (option DataSourceCredentials) :=
  match d "credentials" with
  | VNil => Done None
  | v =>
      s ← assertSet v;
      items ← List_ s;
      credentialsLoop items
  end.

(** The parameter structs of [quicksight.DataSourceParameters]. The Go
    structs of Aurora, Aurora PostgreSQL, MariaDB, MySQL, PostgreSQL, SQL
    Server and Teradata have the same three fields and share a record here,
    as do those of Jira and ServiceNow. *)
Record AmazonElasticsearchParameters : Type := mkAmazonElasticsearchParameters {
  es_Domain : option string
}.

Record AthenaParameters : Type := mkAthenaParameters {
  athena_WorkGroup : option string
}.

Record DatabaseParameters : Type := mkDatabaseParameters {
  db_Database : option string;
  db_Host : option string;
  db_Port : option Z
}.

Record AwsIotAnalyticsParameters : Type := mkAwsIotAnalyticsParameters {
  iot_DataSetName : option string
}.

Record SiteParameters : Type := mkSiteParameters {
  site_SiteBaseUrl : option string
}.

Record PrestoParameters : Type := mkPrestoParameters {
  presto_Catalog : option string;
  presto_Host : option string;
  presto_Port : option Z
}.

Record RedshiftParameters : Type := mkRedshiftParameters {
  redshift_ClusterId : option string;
  redshift_Database : option string;
  redshift_Host : option string;
  redshift_Port : option Z
}.

Record ManifestFileLocation : Type := mkManifestFileLocation {
  manifest_Bucket : option string;
  manifest_Key : option string
}.

Record S3Parameters : Type := mkS3Parameters {
  s3_ManifestFileLocation : option ManifestFileLocation
}.

Record SnowflakeParameters : Type := mkSnowflakeParameters {
  snowflake_Database : option string;
  snowflake_Host : option string;
  snowflake_Warehouse : option string
}.

Record SparkParameters : Type := mkSparkParameters {
  spark_Host : option string;
  spark_Port : option Z
}.

Record TwitterParameters : Type := mkTwitterParameters {
  twitter_MaxRows : option Z;
  twitter_Query : option string
}.

Record DataSourceParameters : Type := mkDataSourceParameters {
  p_AmazonElasticsearchParameters : option AmazonElasticsearchParameters;
  p_AthenaParameters : option AthenaParameters;
  p_AuroraParameters : option DatabaseParameters;
  p_AuroraPostgreSqlParameters : option DatabaseParameters;
  p_AwsIotAnalyticsParameters : option AwsIotAnalyticsParameters;
  p_JiraParameters : option SiteParameters;
  p_MariaDbParameters : option DatabaseParameters;
  p_MySqlParameters : option DatabaseParameters;
  p_PostgreSqlParameters : option DatabaseParameters;
  p_PrestoParameters : option PrestoParameters;
  p_RedshiftParameters : option RedshiftParameters;
  p_S3Parameters : option S3Parameters;
  p_ServiceNowParameters : option SiteParameters;
  p_SnowflakeParameters : option SnowflakeParameters;
  p_SparkParameters : option SparkParameters;
  p_SqlServerParameters : option DatabaseParameters;
  p_TeradataParameters : option DatabaseParameters;
  p_TwitterParameters : option TwitterParameters
}.

(** The constants [quicksight.DataSourceType...], declared in the AWS SDK. *)
Definition DataSourceTypeAmazonElasticsearch : string := "AMAZON_ELASTICSEARCH".
Definition DataSourceTypeAthena : string := "ATHENA".
Definition DataSourceTypeAurora : string := "AURORA".
Definition DataSourceTypeAuroraPostgresql : string := "AURORA_POSTGRESQL".
Definition DataSourceTypeAwsIotAnalytics : string := "AWS_IOT_ANALYTICS".
Definition DataSourceTypeJira : string := "JIRA".
Definition DataSourceTypeMariadb : string := "MARIADB".
Definition DataSourceTypeMysql : string := "MYSQL".
Definition DataSourceTypePostgresql : string := "POSTGRESQL".
Definition DataSourceTypePresto : string := "PRESTO".
Definition DataSourceTypeRedshift : string := "REDSHIFT".
Definition DataSourceTypeS3 : string := "S3".
Definition DataSourceTypeServicenow : string := "SERVICENOW".
Definition DataSourceTypeSnowflake : string := "SNOWFLAKE".
Definition DataSourceTypeSpark : string := "SPARK".
Definition DataSourceTypeSqlserver : string := "SQLSERVER".
Definition DataSourceTypeTeradata : string := "TERADATA".
Definition DataSourceTypeTwitter : string := "TWITTER".

(** [if v, ok := m[key]; ok && v.(int64) != 0]: the number to pass on. *)
Definition nonZeroInt64 (m : list (string * value)) (key : string)
  : res (option Z) :=
  match mapLookup m key with
  | Some v =>
      n ← assertInt64 v;
      Done (if Z.eqb n 0 then None else Some n)
  | None => Done None
  end.

(** The struct literals of the blocks, built from [psResource]. *)
Definition buildAmazonElasticsearch (psResource : list (string * value))
  : res AmazonElasticsearchParameters :=
  domain ← assertString (mapIndex psResource "domain");
  Done {| es_Domain := Some domain |}.

Definition buildAthena (psResource : list (string * value))
  : res AthenaParameters :=
  workGroup ← nonEmptyString psResource "work_group";
  Done {| athena_WorkGroup := workGroup |}.

Definition buildDatabase (psResource : list (string * value))
  : res DatabaseParameters :=
  database ← assertString (mapIndex psResource "database");
  host ← assertString (mapIndex psResource "host");
  port ← assertInt64 (mapIndex psResource "port");
  Done {| db_Database := Some database; db_Host := Some host;
          db_Port := Some port |}.

Definition buildAwsIotAnalytics (psResource : list (string * value))
  : res AwsIotAnalyticsParameters :=
  dataSetName ← assertString (mapIndex psResource "data_set_name");
  Done {| iot_DataSetName := Some dataSetName |}.

Definition buildSite (psResource : list (string * value)) : res SiteParameters :=
  siteBaseUrl ← assertString (mapIndex psResource "site_base_url");
  Done {| site_SiteBaseUrl := Some siteBaseUrl |}.

Definition buildPresto (psResource : list (string * value))
  : res PrestoParameters :=
  catalog ← assertString (mapIndex psResource "catalog");
  host ← assertString (mapIndex psResource "host");
  port ← assertInt64 (mapIndex psResource "port");
  Done {| presto_Catalog := Some catalog; presto_Host := Some host;
          presto_Port := Some port |}.

Definition buildRedshift (psResource : list (string * value))
  : res RedshiftParameters :=
  database ← assertString (mapIndex psResource "database");
  clusterId ← nonEmptyString psResource "cluster_id";
  host ← nonEmptyString psResource "host";
  port ← nonZeroInt64 psResource "port";
  Done {| redshift_ClusterId := clusterId; redshift_Database := Some database;
          redshift_Host := host; redshift_Port := port |}.

Definition buildS3 (psResource : list (string * value)) : res S3Parameters :=
  bucket ← assertString (mapIndex psResource "bucket");
  key ← assertString (mapIndex psResource "key");
  Done {| s3_ManifestFileLocation :=
            Some {| manifest_Bucket := Some bucket; manifest_Key := Some key |} |}.

Definition buildSnowflake (psResource : list (string * value))
  : res SnowflakeParameters :=
  database ← assertString (mapIndex psResource "database");
  host ← assertString (mapIndex psResource "host");
  warehouse ← assertString (mapIndex psResource "warehouse");
  Done {| snowflake_Database := Some database; snowflake_Host := Some host;
          snowflake_Warehouse := Some warehouse |}.

Definition buildSpark (psResource : list (string * value)) : res SparkParameters :=
  host ← assertString (mapIndex psResource "host");
  port ← assertInt64 (mapIndex psResource "port");
  Done {| spark_Host := Some host; spark_Port := Some port |}.

Definition buildTwitter (psResource : list (string * value))
  : res TwitterParameters :=
  maxRows ← assertInt64 (mapIndex psResource "max_rows");
  query ← assertString (mapIndex psResource "query");
  Done {| twitter_MaxRows := Some maxRows; twitter_Query := Some query |}.

(** The loop of a block: every element of the set overwrites the field, so
    the last one stays. *)
Fixpoint blockLoop {T : Type} (build : list (string * value) -> res T)
    (items : list value) (field : option T) : res (option T) :=
  match items with
  | [] => Done field
  | v :: rest =>
      psResource ← assertMap v;
      built ← build psResource;
      blockLoop build rest (Some built)
  end.

(** A block: the guard on [m[key]] and the loop over the elements of the
    set. The field as the block leaves it, nil when the loop body did not
    run. *)
Definition block {T : Type} (m : list (string * value)) (key : string)
    (build : list (string * value) -> res T) : res (option T) :=
  entered ← guardedSet (mapIndex m key);
  match entered with
  | Some items => blockLoop build items None
  | None => Done None
  end.

(** Lines 1094-1110: the block of [s3] asserts that the entry is a set and
    then that the same entry is a map. *)
Definition s3Block (dataSourceParams : list (string * value))
  : res (option S3Parameters) :=
  entered ← guardedSet (mapIndex dataSourceParams "s3");
  match entered with
  | Some _ =>
      s3 ← assertMap (mapIndex dataSourceParams "s3");
      block s3 "manifest_file_location" buildS3
  | None => Done None
  end.

(** [dataSourceType] after a block: the block assigns its constant in the
    loop body in which it sets its field. *)
Definition typeAfter {T : Type} (field : option T) (blockType dataSourceType : string)
  : string :=
  match field with
  | Some _ => blockType
  | None => dataSourceType
  end.

(** Lines 942-1171: the body of the loop over the set [parameters], which
    returns in its first turn. *)
Definition dataSourceParametersOf (dataSourceParams : list (string * value))
  : res (option string * option DataSourceParameters) :=
  let dataSourceType := "" in
  es ← block dataSourceParams "amazon_elasticsearch" buildAmazonElasticsearch;
  let dataSourceType := typeAfter es DataSourceTypeAmazonElasticsearch dataSourceType in
  athena ← block dataSourceParams "athena" buildAthena;
  let dataSourceType := typeAfter athena DataSourceTypeAthena dataSourceType in
  aurora ← block dataSourceParams "aurora" buildDatabase;
  let dataSourceType := typeAfter aurora DataSourceTypeAurora dataSourceType in
  auroraPostgreSql ← block dataSourceParams "aurora_postgre_sql" buildDatabase;
  let dataSourceType :=
    typeAfter auroraPostgreSql DataSourceTypeAuroraPostgresql dataSourceType in
  iot ← block dataSourceParams "aws_iot_analytics" buildAwsIotAnalytics;
  let dataSourceType := typeAfter iot DataSourceTypeAwsIotAnalytics dataSourceType in
  jira ← block dataSourceParams "jira" buildSite;
  let dataSourceType := typeAfter jira DataSourceTypeJira dataSourceType in
  mariaDb ← block dataSourceParams "maria_db" buildDatabase;
  let dataSourceType := typeAfter mariaDb DataSourceTypeMariadb dataSourceType in
  mySql ← block dataSourceParams "mysql" buildDatabase;
  let dataSourceType := typeAfter mySql DataSourceTypeMysql dataSourceType in
  postgreSql ← block dataSourceParams "postgresql" buildDatabase;
  let dataSourceType := typeAfter postgreSql DataSourceTypePostgresql dataSourceType in
  presto ← block dataSourceParams "presto" buildPresto;
  let dataSourceType := typeAfter presto DataSourceTypePresto dataSourceType in
  redshift ← block dataSourceParams "redshift" buildRedshift;
  let dataSourceType := typeAfter redshift DataSourceTypeRedshift dataSourceType in
  s3 ← s3Block dataSourceParams;
  let dataSourceType := typeAfter s3 DataSourceTypeS3 dataSourceType in
  serviceNow ← block dataSourceParams "service_now" buildSite;
  let dataSourceType := typeAfter serviceNow DataSourceTypeServicenow dataSourceType in
  snowflake ← block dataSourceParams "snowflake" buildSnowflake;
  let dataSourceType := typeAfter snowflake DataSourceTypeSnowflake dataSourceType in
  spark ← block dataSourceParams "spark" buildSpark;
  let dataSourceType := typeAfter spark DataSourceTypeSpark dataSourceType in
  sqlServer ← block dataSourceParams "sql_server" buildDatabase;
  let dataSourceType := typeAfter sqlServer DataSourceTypeSqlserver dataSourceType in
  teradata ← block dataSourceParams "teradata" buildDatabase;
  let dataSourceType := typeAfter teradata DataSourceTypeTeradata dataSourceType in
  twitter ← block dataSourceParams "twitter" buildTwitter;
  let dataSourceType := typeAfter twitter DataSourceTypeTwitter dataSourceType in
  Done (Some dataSourceType,
        Some {| p_AmazonElasticsearchParameters := es;
                p_AthenaParameters := athena;
                p_AuroraParameters := aurora;
                p_AuroraPostgreSqlParameters := auroraPostgreSql;
                p_AwsIotAnalyticsParameters := iot;
                p_JiraParameters := jira;
                p_MariaDbParameters := mariaDb;
                p_MySqlParameters := mySql;
                p_PostgreSqlParameters := postgreSql;
                p_PrestoParameters := presto;
                p_RedshiftParameters := redshift;
                p_S3Parameters := s3;
                p_ServiceNowParameters := serviceNow;
                p_SnowflakeParameters := snowflake;
                p_SparkParameters := spark;
                p_SqlServerParameters := sqlServer;
                p_TeradataParameters := teradata;
                p_TwitterParameters := twitter |}).

(** resource_aws_quicksight_data_source.go, lines 937-1177: the type and the
    parameters of the request, [("", nil)] when there are none. *)
Definition resourceAwsQuickSightDataSourceParameters (d : RawData)
  : res (option string * option DataSourceParameters) :=
  match d "parameters" with
  | VNil => Done (Some "", None)
  | v =>
      s ← assertSet v;
      items ← List_ s;
      match items with
      | [] => Done (Some "", None)
      | v :: _ =>
          dataSourceParams ← assertMap v;
          dataSourceParametersOf dataSourceParams
      end
  end.

(** The type that the fields of the parameters call for: that of the last
    field set, in the order of the blocks. *)
Definition typeOfFields (p : DataSourceParameters) : string :=
  typeAfter (p_TwitterParameters p) DataSourceTypeTwitter
  (typeAfter (p_TeradataParameters p) DataSourceTypeTeradata
  (typeAfter (p_SqlServerParameters p) DataSourceTypeSqlserver
  (typeAfter (p_SparkParameters p) DataSourceTypeSpark
  (typeAfter (p_SnowflakeParameters p) DataSourceTypeSnowflake
  (typeAfter (p_ServiceNowParameters p) DataSourceTypeServicenow
  (typeAfter (p_S3Parameters p) DataSourceTypeS3
  (typeAfter (p_RedshiftParameters p) DataSourceTypeRedshift
  (typeAfter (p_PrestoParameters p) DataSourceTypePresto
  (typeAfter (p_PostgreSqlParameters p) DataSourceTypePostgresql
  (typeAfter (p_MySqlParameters p) DataSourceTypeMysql
  (typeAfter (p_MariaDbParameters p) DataSourceTypeMariadb
  (typeAfter (p_JiraParameters p) DataSourceTypeJira
  (typeAfter (p_AwsIotAnalyticsParameters p) DataSourceTypeAwsIotAnalytics
  (typeAfter (p_AuroraPostgreSqlParameters p) DataSourceTypeAuroraPostgresql
  (typeAfter (p_AuroraParameters p) DataSourceTypeAurora
  (typeAfter (p_AthenaParameters p) DataSourceTypeAthena
  (typeAfter (p_AmazonElasticsearchParameters p)
     DataSourceTypeAmazonElasticsearch ""))))))))))))))))).

(** Example configurations. *)
Definition exampleAthena : value :=
  VSet (Some [VMap [("work_group", VString "primary")]]).

Definition exampleTwitter : value :=
  VSet (Some [VMap [("max_rows", VInt64 100); ("query", VString "rocq")]]).

Definition exampleS3 : value :=
  VSet (Some [VMap [("manifest_file_location",
     VSet (Some [VMap [("bucket", VString "b"); ("key", VString "k")]]))]]).

(** [d.Get] of a configuration with the given groups in [parameters]. *)
Definition rawParameters (groups : list (string * value)) : RawData :=
  fun key => if String.eqb key "parameters"
             then VSet (Some [VMap groups]) else VNil.

(** * Properties *)

(** ** Splitting and the composite identifiers *)

Example SplitN_three : SplitN "111111111111/ns/g1" slash 3 = ["111111111111"; "ns"; "g1"].
Proof. reflexivity. Qed.

Example SplitN_two_of_three : SplitN "a/b/c" slash 2 = ["a"; "b/c"].
Proof. reflexivity. Qed.

Example parse_group_example :
  resourceAwsQuickSightGroupParseID (Sprintf3 "111111111111" "ns" "g1")
  = ("111111111111", "ns", "g1", None).
Proof. reflexivity. Qed.

Example parse_group_short :
  exists e, resourceAwsQuickSightGroupParseID "111111111111/ns" = ("", "", "", Some e).
Proof. eexists. reflexivity. Qed.

Lemma Cut_None_Count sep s : Cut sep s = None <-> Count s sep = O.
Proof.
  induction s as [|c s IH]; simpl; [tauto|].
  destruct (Ascii.eqb c sep); simpl.
  - split; discriminate.
  - destruct (Cut sep s) as [[before after]|]; rewrite <- IH; split;
      congruence.
Qed.

Lemma Cut_Some_Count sep s before after :
  Cut sep s = Some (before, after) -> Count s sep = S (Count after sep).
Proof.
  revert before; induction s as [|c s IH]; simpl; intros before; [discriminate|].
  destruct (Ascii.eqb c sep); simpl.
  - intros [= <- <-]; reflexivity.
  - destruct (Cut sep s) as [[b0 a0]|] eqn:E; [|discriminate].
    intros [= <- <-]. eapply IH; reflexivity.
Qed.

(** The segments of a string, one separator at a time. *)
Lemma Split_Cut s sep :
  Split s sep = match Cut sep s with
                | None => [s]
                | Some (before, after) => before :: Split after sep
                end.
Proof.
  unfold Split. destruct (Cut sep s) as [[before after]|] eqn:E.
  - rewrite (Cut_Some_Count _ _ _ _ E). simpl. rewrite E.
    replace (Count after sep + 1)%nat with (S (Count after sep)) by lia.
    reflexivity.
  - apply Cut_None_Count in E. rewrite E. reflexivity.
Qed.

Lemma Split_length_pos s sep : (1 <= length (Split s sep))%nat.
Proof.
  rewrite Split_Cut. destruct (Cut sep s) as [[before after]|]; simpl; lia.
Qed.

Lemma Split_singleton s sep :
  length (Split s sep) = 1%nat -> Split s sep = [s].
Proof.
  rewrite Split_Cut. destruct (Cut sep s) as [[before after]|]; [|reflexivity].
  simpl. pose proof (Split_length_pos after sep). lia.
Qed.

(** A separator after a text without separators is where the text is cut. *)
Lemma Cut_append sep a b :
  ~ In sep (list_ascii_of_string a) ->
  Cut sep (a +:+ String sep b) = Some (a, b).
Proof.
  induction a as [|c a IH]; simpl; intros Hnot.
  - rewrite Ascii.eqb_refl. reflexivity.
  - destruct (Ascii.eqb c sep) eqn:E.
    + apply Ascii.eqb_eq in E. tauto.
    + rewrite IH by tauto. reflexivity.
Qed.

Lemma eqb_empty_false s : s <> "" -> String.eqb s "" = false.
Proof. intros H. apply String.eqb_neq. exact H. Qed.

(** What the two parsers do, in terms of the cuts at the first separators. *)
Lemma DataSourceParseID_Cut id :
  resourceAwsQuickSightDataSourceParseID id =
  match Cut slash id with
  | Some (a, b) =>
      if String.eqb a "" || String.eqb b ""
      then ("", "", Some (errorString ("unexpected format of ID (" +:+ id
                +:+ "), expected AWS_ACCOUNT_ID/DATA_SOURCE_ID")))
      else (a, b, None)
  | None => ("", "", Some (errorString ("unexpected format of ID (" +:+ id
                +:+ "), expected AWS_ACCOUNT_ID/DATA_SOURCE_ID")))
  end.
Proof.
  unfold resourceAwsQuickSightDataSourceParseID. simpl.
  destruct (Cut slash id) as [[a b]|]; reflexivity.
Qed.

Lemma GroupParseID_Cut id :
  resourceAwsQuickSightGroupParseID id =
  match Cut slash id with
  | Some (a, rest) =>
      match Cut slash rest with
      | Some (b, c) =>
          if String.eqb a "" || String.eqb b "" || String.eqb c ""
          then ("", "", "", Some (errorString ("unexpected format of ID ("
                  +:+ id +:+ "), expected AWS_ACCOUNT_ID/NAMESPACE/GROUP_NAME")))
          else (a, b, c, None)
      | None => ("", "", "", Some (errorString ("unexpected format of ID ("
                  +:+ id +:+ "), expected AWS_ACCOUNT_ID/NAMESPACE/GROUP_NAME")))
      end
  | None => ("", "", "", Some (errorString ("unexpected format of ID ("
                  +:+ id +:+ "), expected AWS_ACCOUNT_ID/NAMESPACE/GROUP_NAME")))
  end.
Proof.
  unfold resourceAwsQuickSightGroupParseID. simpl.
  destruct (Cut slash id) as [[a rest]|]; [|reflexivity].
  destruct (Cut slash rest) as [[b c]|]; reflexivity.
Qed.

(** C1, as stated, fails: a first segment that holds a '/' is cut at it, so
    the two segments "a/b" and "c" come back as "a" and "b/c". *)
Lemma roundtrip_fails_on_inner_slash :
  "a/b" <> "" /\ "c" <> "" /\
  resourceAwsQuickSightDataSourceParseID (Sprintf2 "a/b" "c") = ("a", "b/c", None) /\
  resourceAwsQuickSightDataSourceParseID (Sprintf2 "a/b" "c") <> ("a/b", "c", None).
Proof. repeat split; try discriminate; reflexivity. Qed.

Lemma Sprintf2_String a b : Sprintf2 a b = a +:+ String slash b.
Proof. reflexivity. Qed.

Lemma Sprintf3_String a b c :
  Sprintf3 a b c = a +:+ String slash (b +:+ String slash c).
Proof. reflexivity. Qed.

Lemma parse_data_source_joined (a b : string) :
  a <> "" -> b <> "" -> no_slash a ->
  resourceAwsQuickSightDataSourceParseID (Sprintf2 a b) = (a, b, None).
Proof.
  intros Ha Hb Hsa. rewrite DataSourceParseID_Cut, Sprintf2_String.
  rewrite (Cut_append slash a b Hsa).
  rewrite (eqb_empty_false a Ha), (eqb_empty_false b Hb). reflexivity.
Qed.

Lemma parse_group_joined (a b c : string) :
  a <> "" -> b <> "" -> c <> "" -> no_slash a -> no_slash b ->
  resourceAwsQuickSightGroupParseID (Sprintf3 a b c) = (a, b, c, None).
Proof.
  intros Ha Hb Hc Hsa Hsb. rewrite GroupParseID_Cut, Sprintf3_String.
  rewrite (Cut_append slash a _ Hsa), (Cut_append slash b c Hsb).
  rewrite (eqb_empty_false a Ha), (eqb_empty_false b Hb),
    (eqb_empty_false c Hc).
  reflexivity.
Qed.

(** C1 (amended): for 2 or 3 non-empty segments of which all but the last
    hold no '/', parsing the segments joined with '/' succeeds and returns
    exactly the segments. *)
Theorem parse_joined_segments :
  (forall a b : string,
      a <> "" -> b <> "" -> no_slash a ->
      resourceAwsQuickSightDataSourceParseID (Sprintf2 a b) = (a, b, None)) /\
  (forall a b c : string,
      a <> "" -> b <> "" -> c <> "" -> no_slash a -> no_slash b ->
      resourceAwsQuickSightGroupParseID (Sprintf3 a b c) = (a, b, c, None)).
Proof.
  split.
  - exact parse_data_source_joined.
  - exact parse_group_joined.
Qed.

Lemma no_slash_digits : no_slash "111111111111".
Proof. unfold no_slash. simpl. intros H. decompose [or] H; discriminate || assumption. Qed.

Lemma no_slash_ns : no_slash "ns".
Proof. unfold no_slash. simpl. intros H. decompose [or] H; discriminate || assumption. Qed.

Lemma parse_joined_segments_witness :
  resourceAwsQuickSightDataSourceParseID (Sprintf2 "111111111111" "ds/1")
  = ("111111111111", "ds/1", None) /\
  resourceAwsQuickSightGroupParseID (Sprintf3 "111111111111" "ns" "g1")
  = ("111111111111", "ns", "g1", None).
Proof.
  split.
  - apply (proj1 parse_joined_segments "111111111111" "ds/1");
      [discriminate | discriminate | exact no_slash_digits].
  - apply (proj2 parse_joined_segments "111111111111" "ns" "g1");
      [discriminate | discriminate | discriminate
      | exact no_slash_digits | exact no_slash_ns].
Defined.

(** C2, as stated, fails: "a/b/c" has three '/'-separated segments, not two,
    and "a/b/" has an empty segment, yet the data-source parser accepts both,
    the text after the first '/' being its second part whatever it holds. *)
Lemma parse_accepts_extra_segments :
  length (Split "a/b/c" slash) <> 2%nat /\
  resourceAwsQuickSightDataSourceParseID "a/b/c" = ("a", "b/c", None) /\
  In "" (Split "a/b/" slash) /\
  resourceAwsQuickSightDataSourceParseID "a/b/" = ("a", "b/", None).
Proof.
  repeat split; try reflexivity.
  - vm_compute. discriminate.
  - vm_compute. tauto.
Qed.

(** C2 (amended): an identifier with fewer '/'-separated segments than
    expected, or with an empty segment among those before the last expected
    one, or with exactly the expected number of segments and an empty last
    one, is refused with a format error (expected: 2 for the data source, 3
    for the group). *)
Theorem parse_malformed_identifier :
  (forall id : string,
      let segments := Split id slash in
      (length segments < 2)%nat \/ index segments 0 = ""
      \/ (length segments = 2%nat /\ index segments 1 = "") ->
      exists text,
        resourceAwsQuickSightDataSourceParseID id = ("", "", Some (errorString text))) /\
  (forall id : string,
      let segments := Split id slash in
      (length segments < 3)%nat \/ index segments 0 = "" \/ index segments 1 = ""
      \/ (length segments = 3%nat /\ index segments 2 = "") ->
      exists text,
        resourceAwsQuickSightGroupParseID id = ("", "", "", Some (errorString text))).
Proof.
  split.
  - intros id segments H. subst segments. rewrite DataSourceParseID_Cut.
    rewrite Split_Cut in H.
    destruct (Cut slash id) as [[a b]|]; [|eexists; reflexivity].
    assert (Hbad : a = "" \/ b = "").
    { simpl in H. pose proof (Split_length_pos b slash) as Hpos.
      destruct H as [H | [H | [Hlen H]]]; [lia | tauto |].
      right. injection Hlen as Hlen.
      rewrite (Split_singleton b slash Hlen) in H. exact H. }
    destruct Hbad as [-> | ->]; [eexists; reflexivity|].
    rewrite orb_true_r. eexists; reflexivity.
  - intros id segments H. subst segments. rewrite GroupParseID_Cut.
    rewrite Split_Cut in H.
    destruct (Cut slash id) as [[a rest]|]; [|eexists; reflexivity].
    rewrite Split_Cut in H.
    destruct (Cut slash rest) as [[b c]|]; [|eexists; reflexivity].
    assert (Hbad : a = "" \/ b = "" \/ c = "").
    { simpl in H. pose proof (Split_length_pos c slash) as Hpos.
      destruct H as [H | [H | [H | [Hlen H]]]]; [lia | tauto | tauto |].
      right; right. injection Hlen as Hlen.
      rewrite (Split_singleton c slash Hlen) in H. exact H. }
    destruct Hbad as [-> | [-> | ->]]; [eexists; reflexivity | |].
    + rewrite orb_true_r. eexists; reflexivity.
    + rewrite orb_true_r. eexists; reflexivity.
Qed.

Lemma parse_malformed_identifier_witness :
  (exists text,
      resourceAwsQuickSightDataSourceParseID "111111111111"
      = ("", "", Some (errorString text))) /\
  (exists text,
      resourceAwsQuickSightGroupParseID "111111111111/ns"
      = ("", "", "", Some (errorString text))).
Proof.
  split.
  - apply (proj1 parse_malformed_identifier "111111111111").
    left. vm_compute. lia.
  - apply (proj2 parse_malformed_identifier "111111111111/ns").
    left. vm_compute. lia.
Defined.

(** The conditions of C2 (amended) are the only ones under which the
    data-source parser refuses an identifier. *)
Lemma parse_data_source_error_only_if id e :
  snd (resourceAwsQuickSightDataSourceParseID id) = Some e ->
  let segments := Split id slash in
  (length segments < 2)%nat \/ index segments 0 = ""
  \/ (length segments = 2%nat /\ index segments 1 = "").
Proof.
  rewrite DataSourceParseID_Cut, Split_Cut.
  destruct (Cut slash id) as [[a b]|]; simpl; [|intros _; left; lia].
  destruct (String.eqb a "") eqn:Ea; simpl.
  - apply String.eqb_eq in Ea. tauto.
  - destruct (String.eqb b "") eqn:Eb; simpl; [|discriminate].
    apply String.eqb_eq in Eb. subst b. intros _. right; right.
    split; reflexivity.
Qed.

(** The same for the group parser. *)
Lemma parse_group_error_only_if id e :
  snd (resourceAwsQuickSightGroupParseID id) = Some e ->
  let segments := Split id slash in
  (length segments < 3)%nat \/ index segments 0 = "" \/ index segments 1 = ""
  \/ (length segments = 3%nat /\ index segments 2 = "").
Proof.
  rewrite GroupParseID_Cut, Split_Cut.
  destruct (Cut slash id) as [[a rest]|]; simpl; [|intros _; left; lia].
  rewrite Split_Cut.
  destruct (Cut slash rest) as [[b c]|]; simpl; [|intros _; left; lia].
  destruct (String.eqb a "") eqn:Ea; simpl.
  { apply String.eqb_eq in Ea. tauto. }
  destruct (String.eqb b "") eqn:Eb; simpl.
  { apply String.eqb_eq in Eb. tauto. }
  destruct (String.eqb c "") eqn:Ec; simpl; [|discriminate].
  apply String.eqb_eq in Ec. subst c. intros _. right; right; right.
  split; reflexivity.
Qed.



(** ** The retry helper and the function literal of the read *)

(** One turn of the loop. *)
Lemma poll_turn {W} backoff timeout (f : W -> option RetryError * W)
    elapsed attempts w :
  poll backoff timeout f elapsed attempts w =
  match f w with
  | (None, w1) => mkRetryRun None w1 (elapsed :: attempts) elapsed
  | (Some rerr, w1) =>
      if Retryable rerr then
        if Z_lt_dec timeout (elapsed + Z.pos backoff)
        then mkRetryRun (Some TimeoutError) w1 (elapsed :: attempts)
               (elapsed + Z.pos backoff)
        else poll backoff timeout f (elapsed + Z.pos backoff)
               (elapsed :: attempts) w1
      else mkRetryRun (Some (Err rerr)) w1 (elapsed :: attempts) elapsed
  end.
Proof.
  simp poll. destruct (f w) as [[rerr|] w1]; simpl; [|reflexivity].
  destruct (Retryable rerr); simpl; [|reflexivity].
  destruct (Z_lt_dec timeout (elapsed + Z.pos backoff)); reflexivity.
Qed.

Lemma connAfter_0 c : connAfter c 0 = c.
Proof. destruct c as [svc n]. unfold connAfter. simpl. f_equal. lia. Qed.

Lemma connAfter_connAfter c i j : connAfter (connAfter c i) j = connAfter c (i + j).
Proof. unfold connAfter. simpl. f_equal. lia. Qed.

Lemma fetched_connAfter c i j : fetched (connAfter c i) j = fetched c (i + j).
Proof. unfold fetched, connAfter. simpl. f_equal. lia. Qed.

Lemma attemptTimes_S start step n :
  attemptTimes start step (S n) = start :: attemptTimes (start + step) step n.
Proof.
  unfold attemptTimes. simpl. f_equal.
  - lia.
  - rewrite <- seq_shift, map_map. apply map_ext. intros i.
    rewrite Nat2Z.inj_succ. ring.
Qed.

Lemma attemptTimes_length start step n : length (attemptTimes start step n) = n.
Proof. unfold attemptTimes. rewrite length_map, length_seq. reflexivity. Qed.

Lemma inProgressStatus_eqb status :
  String.eqb status ResourceStatusCreationInProgress
  || String.eqb status ResourceStatusUpdateInProgress = true
  <-> inProgressStatus status.
Proof.
  unfold inProgressStatus. rewrite orb_true_iff, !String.eqb_eq. tauto.
Qed.

Lemma failedStatus_eqb status :
  String.eqb status ResourceStatusCreationFailed
  || String.eqb status ResourceStatusUpdateFailed = true
  <-> failedStatus status.
Proof.
  unfold failedStatus. rewrite orb_true_iff, !String.eqb_eq. tauto.
Qed.

Lemma inProgress_dec r : {inProgress r} + {~ inProgress r}.
Proof.
  unfold inProgress. destruct (reportedStatus r) as [status|].
  - destruct (String.eqb status ResourceStatusCreationInProgress
              || String.eqb status ResourceStatusUpdateInProgress) eqn:E.
    + left. exists status. split; [reflexivity|].
      apply inProgressStatus_eqb. exact E.
    + right. intros [s [[= <-] Hs]]. apply inProgressStatus_eqb in Hs.
      congruence.
  - right. intros [s [Hs _]]. discriminate.
Qed.

Lemma failed_not_inProgress status :
  failedStatus status -> ~ inProgressStatus status.
Proof.
  intros [-> | ->] [H | H]; discriminate.
Qed.

Section FunctionLiteral.

Variable d : ResourceData.
Variable descOpts : DataSourceInput.

(** Every attempt is one describe call. *)
Lemma describeAttempt_state c :
  snd (describeAttempt d descOpts c) = connAfter c 1.
Proof.
  assert (Hc : {| service := service c; describeCalls := S (describeCalls c) |}
               = connAfter c 1).
  { unfold connAfter. f_equal. lia. }
  unfold describeAttempt, DescribeDataSource. rewrite Hc.
  destruct (describeDataSource (service c) (describeCalls c)) as [out|e].
  - destruct (out_DataSource out) as [ds|]; [|reflexivity].
    destruct (_ || _); [reflexivity|]. destruct (_ || _); reflexivity.
  - reflexivity.
Qed.

(** The four ways in which the literal classifies the reply it fetched. *)
Lemma describeAttempt_in_progress c status :
  reportedStatus (fetched c 0) = Some status -> inProgressStatus status ->
  fst (describeAttempt d descOpts c)
  = RetryableError (errorString
      ("Data Source operation still in progress (" +:+ Id d +:+ "): "
         +:+ status)).
Proof.
  unfold fetched, describeAttempt, DescribeDataSource, reportedStatus.
  rewrite Nat.add_0_r.
  destruct (describeDataSource (service c) (describeCalls c)) as [out|e];
    [|discriminate].
  destruct (out_DataSource out) as [ds|]; [|discriminate].
  intros [= <-] Hs. apply inProgressStatus_eqb in Hs. rewrite Hs.
  reflexivity.
Qed.

Lemma describeAttempt_failed c status :
  reportedStatus (fetched c 0) = Some status -> failedStatus status ->
  fst (describeAttempt d descOpts c)
  = NonRetryableError (errorString
      ("Data Source operation failed (" +:+ Id d +:+ "): " +:+ status)).
Proof.
  unfold fetched, describeAttempt, DescribeDataSource, reportedStatus.
  rewrite Nat.add_0_r.
  destruct (describeDataSource (service c) (describeCalls c)) as [out|e];
    [|discriminate].
  destruct (out_DataSource out) as [ds|]; [|discriminate].
  intros [= <-] Hs.
  destruct (String.eqb (StringValue (ds_Status ds)) ResourceStatusCreationInProgress
            || String.eqb (StringValue (ds_Status ds)) ResourceStatusUpdateInProgress)
    eqn:E.
  - apply inProgressStatus_eqb in E.
    destruct (failed_not_inProgress _ Hs E).
  - apply failedStatus_eqb in Hs. rewrite Hs. reflexivity.
Qed.

Lemma describeAttempt_failure c e :
  fetched c 0 = Failure e ->
  fst (describeAttempt d descOpts c) = NonRetryableError e.
Proof.
  unfold fetched, describeAttempt, DescribeDataSource.
  rewrite Nat.add_0_r. intros ->. reflexivity.
Qed.

Lemma describeAttempt_stable c out :
  fetched c 0 = Response out ->
  (forall status, reportedStatus (Response out) = Some status ->
                  ~ inProgressStatus status /\ ~ failedStatus status) ->
  fst (describeAttempt d descOpts c) = None.
Proof.
  unfold fetched, describeAttempt, DescribeDataSource, reportedStatus.
  rewrite Nat.add_0_r. intros -> Hstable.
  destruct (out_DataSource out) as [ds|]; [|reflexivity].
  destruct (Hstable _ eq_refl) as [Hnip Hnf].
  rewrite <- inProgressStatus_eqb in Hnip.
  rewrite <- failedStatus_eqb in Hnf.
  apply not_true_is_false in Hnip, Hnf. rewrite Hnip, Hnf. reflexivity.
Qed.

(** Retryable is what an in-progress status is classified as, and nothing
    else. *)
Lemma describeAttempt_retryable_iff c :
  (exists rerr, fst (describeAttempt d descOpts c) = Some rerr
                /\ Retryable rerr = true)
  <-> inProgress (fetched c 0).
Proof.
  split.
  - intros [rerr [Hres Hretry]].
    destruct (inProgress_dec (fetched c 0)) as [H | H]; [exact H | exfalso].
    revert Hres. unfold inProgress, fetched, reportedStatus in H.
    unfold describeAttempt, DescribeDataSource.
    rewrite Nat.add_0_r in H.
    destruct (describeDataSource (service c) (describeCalls c)) as [out|e].
    + destruct (out_DataSource out) as [ds|].
      * destruct (String.eqb (StringValue (ds_Status ds)) ResourceStatusCreationInProgress
                  || String.eqb (StringValue (ds_Status ds)) ResourceStatusUpdateInProgress)
          eqn:E.
        { apply inProgressStatus_eqb in E. destruct H. eauto. }
        destruct (String.eqb _ ResourceStatusCreationFailed || _); simpl;
          intros Heq; try (injection Heq as Heq; subst rerr); discriminate.
      * simpl. discriminate.
    + simpl. intros Heq. injection Heq as Heq. subst rerr. discriminate.
  - intros [status [Hs Hip]].
    rewrite (describeAttempt_in_progress c status Hs Hip).
    eexists. split; reflexivity.
Qed.

End FunctionLiteral.

Section Poller.

Variable backoff : positive.
Variable d : ResourceData.
Variable descOpts : DataSourceInput.
Variable timeout : Z.

(** The shape of every run of the loop around the literal: [n] attempts
    that fetch an in-progress status, each one backoff interval after the
    one before, and a last attempt, which either fetches something else,
    whose classification is the result, or fetches an in-progress status
    too late for another wait to end within the time-out. *)
Lemma poll_shape (m : nat) : forall elapsed attempts c,
  (Z.to_nat (timeout - elapsed + 1) <= m)%nat ->
  exists n : nat,
    let run :=
      poll backoff timeout (describeAttempt d descOpts) elapsed attempts c in
    run_state run = connAfter c (S n) /\
    (forall j, (j < n)%nat -> inProgress (fetched c j)) /\
    rev (run_attempts run)
    = (rev attempts ++ attemptTimes elapsed (Z.pos backoff) (S n))%list /\
    ((~ inProgress (fetched c n) /\
      run_err run
      = option_map Err (fst (describeAttempt d descOpts (connAfter c n))) /\
      run_elapsed run = (elapsed + Z.of_nat n * Z.pos backoff)%Z)
     \/
     (inProgress (fetched c n) /\
      run_err run = Some TimeoutError /\
      run_elapsed run = (elapsed + Z.of_nat (S n) * Z.pos backoff)%Z /\
      (timeout < run_elapsed run)%Z /\
      (elapsed <= timeout ->
       elapsed + Z.of_nat n * Z.pos backoff <= timeout)%Z)).
Proof.
  induction m as [m IH] using lt_wf_ind.
  intros elapsed attempts c Hm. rewrite poll_turn.
  pose proof (describeAttempt_state d descOpts c) as Hstate.
  pose proof (describeAttempt_retryable_iff d descOpts c) as Hretry.
  destruct (describeAttempt d descOpts c) as [r c1] eqn:Ef.
  simpl in Hstate, Hretry. subst c1.
  assert (Hlast : fst (describeAttempt d descOpts (connAfter c 0)) = r).
  { rewrite connAfter_0, Ef. reflexivity. }
  assert (Hone : attemptTimes elapsed (Z.pos backoff) 1 = [elapsed]).
  { rewrite attemptTimes_S. reflexivity. }
  destruct r as [rerr|].
  - destruct (Retryable rerr) eqn:Er.
    + assert (Hip : inProgress (fetched c 0)).
      { apply Hretry. exists rerr. split; [reflexivity | exact Er]. }
      destruct (Z_lt_dec timeout (elapsed + Z.pos backoff)) as [Hlate | Hearly].
      * exists O. simpl. rewrite Hone. repeat split.
        { intros j Hj. lia. }
        right. repeat split; try assumption; lia.
      * destruct (IH (Z.to_nat (timeout - (elapsed + Z.pos backoff) + 1))
                    ltac:(lia) (elapsed + Z.pos backoff)%Z (elapsed :: attempts)
                    (connAfter c 1) ltac:(lia))
          as [n [Hst [Hall [Htimes Hend]]]].
        exists (S n). cbv zeta in *.
        rewrite connAfter_connAfter in Hst.
        split; [exact Hst|]. split.
        { intros [|j] Hj; [exact Hip|].
          specialize (Hall j ltac:(lia)).
          rewrite fetched_connAfter in Hall. exact Hall. }
        split.
        { rewrite Htimes. simpl rev. rewrite <- app_assoc.
          rewrite (attemptTimes_S elapsed _ (S n)). reflexivity. }
        rewrite fetched_connAfter, connAfter_connAfter in Hend.
        change (1 + n)%nat with (S n) in Hend.
        destruct Hend as [[Hnip [Herr Hel]] | [Hip' [Herr [Hel [Hout Hin]]]]].
        { left. repeat split; try assumption. rewrite Hel. lia. }
        { right. repeat split; try assumption; try lia. }
    + exists O. simpl. rewrite Hone. repeat split.
      { intros j Hj. lia. }
      left. repeat split.
      * intros Hip. apply Hretry in Hip. destruct Hip as [x [[= <-] Hx]].
        congruence.
      * rewrite Hlast. reflexivity.
      * lia.
  - exists O. simpl. rewrite Hone. repeat split.
    { intros j Hj. lia. }
    left. repeat split.
    + intros Hip. apply Hretry in Hip. destruct Hip as [x [Hx _]].
      discriminate.
    + rewrite Hlast. reflexivity.
    + lia.
Qed.

End Poller.

(** ** The poller of the data-source read *)

Lemma fetchCount_connAfter c n : fetchCount c (connAfter c n) = n.
Proof. unfold fetchCount, connAfter. simpl. lia. Qed.

(** [poll_shape] for the run that the read starts. *)
Lemma readPoller_shape backoff d descOpts c :
  exists n : nat,
    let run := readPoller backoff d descOpts c in
    run_state run = connAfter c (S n) /\
    (forall j, (j < n)%nat -> inProgress (fetched c j)) /\
    rev (run_attempts run) = attemptTimes 0 (Z.pos backoff) (S n) /\
    ((~ inProgress (fetched c n) /\
      run_err run
      = option_map Err (fst (describeAttempt d descOpts (connAfter c n))) /\
      run_elapsed run = (Z.of_nat n * Z.pos backoff)%Z)
     \/
     (inProgress (fetched c n) /\
      run_err run = Some TimeoutError /\
      run_elapsed run = (Z.of_nat (S n) * Z.pos backoff)%Z /\
      (5 * Minute < run_elapsed run)%Z /\
      (Z.of_nat n * Z.pos backoff <= 5 * Minute)%Z)).
Proof.
  destruct (poll_shape backoff d descOpts (5 * Minute)
              (Z.to_nat (5 * Minute - 0 + 1)) 0%Z [] c (le_n _))
    as [n [Hst [Hall [Htimes Hend]]]].
  exists n. unfold readPoller, Retry. cbv zeta in *.
  split; [exact Hst|]. split; [exact Hall|]. split; [exact Htimes|].
  destruct Hend as [[Hnip [Herr Hel]] | [Hip [Herr [Hel [Hout Hin]]]]].
  - left. repeat split; assumption.
  - right. repeat split; try assumption. apply Hin. unfold Minute. lia.
Qed.

(** A fetch that does not report an in-progress status is the last one of
    the run, and its classification is the result. *)
Lemma readPoller_stops backoff d descOpts c j :
  (j < fetchCount c (run_state (readPoller backoff d descOpts c)))%nat ->
  ~ inProgress (fetched c j) ->
  run_state (readPoller backoff d descOpts c) = connAfter c (S j) /\
  run_err (readPoller backoff d descOpts c)
  = option_map Err (fst (describeAttempt d descOpts (connAfter c j))).
Proof.
  destruct (readPoller_shape backoff d descOpts c)
    as [n [Hst [Hall [_ Hend]]]].
  cbv zeta in *. rewrite Hst, fetchCount_connAfter. intros Hj Hnip.
  assert (j = n) as ->.
  { destruct (Nat.eq_dec j n) as [E | E]; [exact E | exfalso].
    apply Hnip, Hall. lia. }
  split; [reflexivity|].
  destruct Hend as [[_ [Herr _]] | [Hip _]]; [exact Herr | contradiction].
Qed.

(** C3: when the first fetch returns a response whose status is none of the
    two in-progress and the two failed statuses, the poller returns success
    after exactly one fetch. *)
Theorem poller_stable_at_first_fetch
    (backoff : positive) (d : ResourceData) (descOpts : DataSourceInput)
    (c : Conn) (out : DescribeDataSourceOutput) :
  fetched c 0 = Response out ->
  (forall status, reportedStatus (Response out) = Some status ->
                  ~ inProgressStatus status /\ ~ failedStatus status) ->
  run_err (readPoller backoff d descOpts c) = None /\
  fetchCount c (run_state (readPoller backoff d descOpts c)) = 1%nat.
Proof.
  intros Hfetch Hstable.
  pose proof (describeAttempt_stable d descOpts c out Hfetch Hstable) as Hres.
  pose proof (describeAttempt_state d descOpts c) as Hst.
  unfold readPoller, Retry. rewrite poll_turn.
  destruct (describeAttempt d descOpts c) as [r c1]. simpl in Hres, Hst.
  subst r c1. simpl. split; [reflexivity|]. apply fetchCount_connAfter.
Qed.

Lemma poller_stable_at_first_fetch_witness :
  run_err (readPoller Second exampleData exampleOpts readyAtOnce) = None /\
  fetchCount readyAtOnce
    (run_state (readPoller Second exampleData exampleOpts readyAtOnce)) = 1%nat.
Proof.
  eapply (poller_stable_at_first_fetch Second exampleData exampleOpts readyAtOnce).
  - reflexivity.
  - intros status [= <-]. split; intros [H | H]; discriminate.
Defined.

(** C4: a fetch that reports creation-failed or update-failed is classified
    as a non-retryable error naming the resource and the status; the poller
    returns that error and the fetch is its last one. *)
Theorem poller_stops_at_failed_status
    (backoff : positive) (d : ResourceData) (descOpts : DataSourceInput)
    (c : Conn) (j : nat) (status : string) :
  (j < fetchCount c (run_state (readPoller backoff d descOpts c)))%nat ->
  reportedStatus (fetched c j) = Some status ->
  failedStatus status ->
  let failure :=
    errorString ("Data Source operation failed (" +:+ Id d +:+ "): " +:+ status) in
  fst (describeAttempt d descOpts (connAfter c j)) = NonRetryableError failure /\
  run_err (readPoller backoff d descOpts c) = Some failure /\
  fetchCount c (run_state (readPoller backoff d descOpts c)) = S j.
Proof.
  intros Hj Hstatus Hfailed failure.
  assert (Hnip : ~ inProgress (fetched c j)).
  { intros [s [Hs Hip]]. rewrite Hstatus in Hs. injection Hs as <-.
    exact (failed_not_inProgress status Hfailed Hip). }
  assert (Hclass : fst (describeAttempt d descOpts (connAfter c j))
                   = NonRetryableError failure).
  { apply describeAttempt_failed; [|exact Hfailed].
    rewrite fetched_connAfter, Nat.add_0_r. exact Hstatus. }
  destruct (readPoller_stops backoff d descOpts c j Hj Hnip) as [Hst Herr].
  split; [exact Hclass|]. split.
  - rewrite Herr, Hclass. reflexivity.
  - rewrite Hst. apply fetchCount_connAfter.
Qed.

Lemma poller_stops_at_failed_status_witness :
  fst (describeAttempt exampleData exampleOpts (connAfter failsAfterOne 1))
  = NonRetryableError (errorString
      ("Data Source operation failed (" +:+ Id exampleData +:+ "): "
         +:+ "CREATION_FAILED")) /\
  run_err (readPoller Second exampleData exampleOpts failsAfterOne)
  = Some (errorString
      ("Data Source operation failed (" +:+ Id exampleData +:+ "): "
         +:+ "CREATION_FAILED")) /\
  fetchCount failsAfterOne
    (run_state (readPoller Second exampleData exampleOpts failsAfterOne)) = 2%nat.
Proof.
  apply (poller_stops_at_failed_status Second exampleData exampleOpts
           failsAfterOne 1 "CREATION_FAILED").
  - vm_compute. lia.
  - reflexivity.
  - left. reflexivity.
Defined.

(** ** The read operation *)

(** When the poller ends with success, the read dereferences its own [resp],
    which nothing has assigned. *)
Lemma read_panics_when_poller_succeeds backoff d c awsAccountId dataSourceId :
  resourceAwsQuickSightDataSourceParseID (Id d)
  = (awsAccountId, dataSourceId, None) ->
  run_err (readPoller backoff d
             {| in_AwsAccountId := Some awsAccountId;
                in_DataSourceId := Some dataSourceId |} c) = None ->
  resourceAwsQuickSightDataSourceRead backoff d c
  = (Panicked, d,
     run_state (readPoller backoff d
                  {| in_AwsAccountId := Some awsAccountId;
                     in_DataSourceId := Some dataSourceId |} c)).
Proof.
  intros Hparse Hrun. unfold resourceAwsQuickSightDataSourceRead.
  rewrite Hparse. cbv zeta. rewrite Hrun. reflexivity.
Qed.

(** Lines 636-638 on the response of the service, had it reached them: the
    three attributes are set. *)
Example readAttributes_of_fetched_response :
  exists d,
    readAttributes
      (Some {| out_DataSource := Some
         {| ds_Arn := Some "arn:aws:quicksight:us-east-1:111111111111:datasource/ds1";
            ds_DataSourceId := Some "ds1";
            ds_Status := Some "CREATION_SUCCESSFUL";
            ds_DataSourceParameters := Some tt |} |})
      "111111111111" exampleData = (Returned None, d) /\
    Get "arn" d = "arn:aws:quicksight:us-east-1:111111111111:datasource/ds1" /\
    Get "id" d = "ds1" /\
    Get "aws_account_id" d = "111111111111".
Proof. eexists. repeat split. Qed.

(** C5 (the code departs from it): the first fetch describes the data source
    as created, with its ARN and id; the poller returns success, and the
    read panics where it should copy the response into the state, which
    stays as it was. *)
Theorem read_panics_on_completed_data_source :
  fetched readyAtOnce 0 = describedAs "CREATION_SUCCESSFUL" /\
  run_err (readPoller Second exampleData exampleOpts readyAtOnce) = None /\
  resourceAwsQuickSightDataSourceRead Second exampleData readyAtOnce
  = (Panicked, exampleData, connAfter readyAtOnce 1).
Proof.
  split; [reflexivity|]. split; [vm_compute; reflexivity|].
  rewrite (read_panics_when_poller_succeeds Second exampleData readyAtOnce
             "111111111111" "ds1"); [|reflexivity | vm_compute; reflexivity].
  vm_compute. reflexivity.
Qed.

(** C6: a fetch that returns the not-found error is the last one, however
    many in-progress statuses were fetched before it; the read clears the
    identifier and returns nil. *)
Theorem read_clears_identifier_when_not_found
    (backoff : positive) (d : ResourceData) (c : Conn) (j : nat) (e : error) :
  (j < fetchCount c (snd (resourceAwsQuickSightDataSourceRead backoff d c)))%nat ->
  fetched c j = Failure e ->
  isAWSErr (Some e) ErrCodeResourceNotFoundException "" = true ->
  resourceAwsQuickSightDataSourceRead backoff d c
  = (Returned None, SetId "" d, connAfter c (S j)) /\
  Id (SetId "" d) = "".
Proof.
  unfold resourceAwsQuickSightDataSourceRead.
  destruct (resourceAwsQuickSightDataSourceParseID (Id d))
    as [[awsAccountId dataSourceId] [err|]].
  - simpl. unfold fetchCount. lia.
  - cbv zeta.
    set (descOpts := {| in_AwsAccountId := Some awsAccountId;
                        in_DataSourceId := Some dataSourceId |}).
    intros Hj Hfetch Hgone.
    assert (Hcount : (j < fetchCount c (run_state (readPoller backoff d descOpts c)))%nat).
    { revert Hj.
      destruct (isAWSErr (run_err (readPoller backoff d descOpts c)) _ _);
        [intros H; exact H|].
      destruct (run_err (readPoller backoff d descOpts c)); [intros H; exact H|].
      destruct (readAttributes None awsAccountId d). intros H; exact H. }
    assert (Hnip : ~ inProgress (fetched c j)).
    { rewrite Hfetch. intros [s [Hs _]]. discriminate. }
    destruct (readPoller_stops backoff d descOpts c j Hcount Hnip) as [Hst Herr].
    rewrite (describeAttempt_failure d descOpts (connAfter c j) e) in Herr
      by (rewrite fetched_connAfter, Nat.add_0_r; exact Hfetch).
    simpl in Herr. rewrite Herr, Hgone, Hst. split; reflexivity.
Qed.

Lemma read_clears_identifier_when_not_found_witness :
  resourceAwsQuickSightDataSourceRead Second exampleData goneAfterOne
  = (Returned None, SetId "" exampleData, connAfter goneAfterOne 2) /\
  Id (SetId "" exampleData) = "".
Proof.
  apply (read_clears_identifier_when_not_found Second exampleData goneAfterOne
           1 notFound).
  - vm_compute. lia.
  - reflexivity.
  - reflexivity.
Defined.

(** C7: the literal classifies a fetch as retryable exactly when it reports
    creation-in-progress or update-in-progress, and a fetch with any other
    outcome is the last one of the run. *)
Theorem only_in_progress_is_retried :
  (forall (d : ResourceData) (descOpts : DataSourceInput) (c : Conn),
      (exists rerr, fst (describeAttempt d descOpts c) = Some rerr
                    /\ Retryable rerr = true)
      <-> inProgress (fetched c 0)) /\
  (forall (backoff : positive) (d : ResourceData) (descOpts : DataSourceInput)
          (c : Conn) (j : nat),
      (j < fetchCount c (run_state (readPoller backoff d descOpts c)))%nat ->
      ~ inProgress (fetched c j) ->
      fetchCount c (run_state (readPoller backoff d descOpts c)) = S j).
Proof.
  split.
  - exact describeAttempt_retryable_iff.
  - intros backoff d descOpts c j Hj Hnip.
    destruct (readPoller_stops backoff d descOpts c j Hj Hnip) as [Hst _].
    rewrite Hst. apply fetchCount_connAfter.
Qed.

Lemma only_in_progress_is_retried_witness :
  fetchCount goneAfterOne
    (run_state (readPoller Second exampleData exampleOpts goneAfterOne)) = 2%nat.
Proof.
  apply (proj2 only_in_progress_is_retried Second exampleData exampleOpts
           goneAfterOne 1).
  - vm_compute. lia.
  - intros [s [Hs _]]. discriminate.
Defined.

(** C8: while every fetch reports an in-progress status, the fetches follow
    one another at the backoff interval, from time 0 on, the last of them
    within the 5 minutes; the poller then returns the time-out error, which
    is not the error of a failed status, at a time past the 5 minutes by at
    most one backoff interval. *)
Theorem poller_times_out
    (backoff : positive) (d : ResourceData) (descOpts : DataSourceInput)
    (c : Conn) :
  (forall j, inProgress (fetched c j)) ->
  let run := readPoller backoff d descOpts c in
  let fetches := fetchCount c (run_state run) in
  run_err run = Some TimeoutError /\
  (forall status,
      run_err run <> Some (errorString
        ("Data Source operation failed (" +:+ Id d +:+ "): " +:+ status))) /\
  rev (run_attempts run) = attemptTimes 0 (Z.pos backoff) fetches /\
  (1 <= fetches)%nat /\
  (Z.of_nat (fetches - 1) * Z.pos backoff <= 5 * Minute)%Z /\
  (5 * Minute < run_elapsed run <= 5 * Minute + Z.pos backoff)%Z.
Proof.
  intros Hall run fetches. subst run fetches.
  destruct (readPoller_shape backoff d descOpts c)
    as [n [Hst [_ [Htimes Hend]]]].
  cbv zeta in *. rewrite Hst, fetchCount_connAfter.
  destruct Hend as [[Hnip _] | [_ [Herr [Hel [Hout Hin]]]]].
  - destruct (Hnip (Hall n)).
  - rewrite Herr. split; [reflexivity|]. split; [discriminate|].
    split; [exact Htimes|]. split; [lia|].
    replace (S n - 1)%nat with n by lia. split; [exact Hin|].
    rewrite Hel in *. lia.
Qed.

Lemma poller_times_out_witness :
  run_err (readPoller Second exampleData exampleOpts neverReady)
  = Some TimeoutError /\
  (forall status,
      run_err (readPoller Second exampleData exampleOpts neverReady)
      <> Some (errorString
           ("Data Source operation failed (" +:+ Id exampleData +:+ "): "
              +:+ status))) /\
  rev (run_attempts (readPoller Second exampleData exampleOpts neverReady))
  = attemptTimes 0 (Z.pos Second)
      (fetchCount neverReady
         (run_state (readPoller Second exampleData exampleOpts neverReady))) /\
  (1 <= fetchCount neverReady
          (run_state (readPoller Second exampleData exampleOpts neverReady)))%nat /\
  (Z.of_nat
     (fetchCount neverReady
        (run_state (readPoller Second exampleData exampleOpts neverReady)) - 1)
   * Z.pos Second <= 5 * Minute)%Z /\
  (5 * Minute
   < run_elapsed (readPoller Second exampleData exampleOpts neverReady)
   <= 5 * Minute + Z.pos Second)%Z.
Proof.
  apply (poller_times_out Second exampleData exampleOpts neverReady).
  intros j. exists "CREATION_IN_PROGRESS". split.
  - unfold fetched, neverReady, scripted. simpl. destruct j; reflexivity.
  - left. reflexivity.
Defined.

Example poller_times_out_after_301_fetches :
  fetchCount neverReady
    (run_state (readPoller Second exampleData exampleOpts neverReady)) = 301%nat /\
  run_elapsed (readPoller Second exampleData exampleOpts neverReady)
  = 301000000000%Z.
Proof. vm_compute. split; reflexivity. Qed.

(** ** The delete operations *)

(** The typed error with the not-found code is recognised whatever its
    message. *)
Lemma isAWSErr_not_found message :
  isAWSErr (Some (awserrError ErrCodeResourceNotFoundException message))
    ErrCodeResourceNotFoundException "" = true.
Proof. unfold isAWSErr, Contains. destruct message; reflexivity. Qed.

Lemma isAWSErr_plain text code message :
  isAWSErr (Some (errorString text)) code message = false.
Proof. reflexivity. Qed.

(** C9: when the remote delete call returns the not-found error, the delete
    of a data source and the delete of a group return nil; any other error
    of the delete call is returned to the caller, wrapped in a text that
    names the resource. *)
Theorem delete_tolerates_not_found :
  (forall (d : ResourceData) (c : Conn) (awsAccountId dataSourceId : string)
          (e : error),
      resourceAwsQuickSightDataSourceParseID (Id d)
      = (awsAccountId, dataSourceId, None) ->
      deleteDataSource (service c)
        {| in_AwsAccountId := Some awsAccountId;
           in_DataSourceId := Some dataSourceId |} = Some e ->
      (isAWSErr (Some e) ErrCodeResourceNotFoundException "" = true ->
       resourceAwsQuickSightDataSourceDelete d c = None) /\
      (isAWSErr (Some e) ErrCodeResourceNotFoundException "" = false ->
       resourceAwsQuickSightDataSourceDelete d c
       = Some (errorString ("Error deleting QuickSight Data Source " +:+ Id d
                              +:+ ": " +:+ Error e)))) /\
  (forall (d : ResourceData) (c : Conn) (awsAccountID namespace groupName : string)
          (e : error),
      resourceAwsQuickSightGroupParseID (Id d)
      = (awsAccountID, namespace, groupName, None) ->
      deleteGroup (service c)
        {| gin_AwsAccountId := Some awsAccountID;
           gin_Namespace := Some namespace;
           gin_GroupName := Some groupName |} = Some e ->
      (isAWSErr (Some e) ErrCodeResourceNotFoundException "" = true ->
       resourceAwsQuickSightGroupDelete d c = None) /\
      (isAWSErr (Some e) ErrCodeResourceNotFoundException "" = false ->
       resourceAwsQuickSightGroupDelete d c
       = Some (errorString ("Error deleting QuickSight Group " +:+ Id d
                              +:+ ": " +:+ Error e)))).
Proof.
  split.
  - intros d c awsAccountId dataSourceId e Hparse Hdelete.
    unfold resourceAwsQuickSightDataSourceDelete.
    rewrite Hparse, Hdelete. split; intros ->; reflexivity.
  - intros d c awsAccountID namespace groupName e Hparse Hdelete.
    unfold resourceAwsQuickSightGroupDelete.
    rewrite Hparse, Hdelete. split; intros ->; reflexivity.
Qed.

Lemma delete_tolerates_not_found_witness :
  resourceAwsQuickSightDataSourceDelete exampleData
    (scripted [] (Failure notFound) (Some notFound)) = None /\
  resourceAwsQuickSightGroupDelete exampleGroup
    (scripted [] (Failure notFound) (Some throttled))
  = Some (errorString ("Error deleting QuickSight Group " +:+ Id exampleGroup
                         +:+ ": " +:+ Error throttled)).
Proof.
  split.
  - apply (proj1 (proj1 delete_tolerates_not_found exampleData
                    (scripted [] (Failure notFound) (Some notFound))
                    "111111111111" "ds1" notFound eq_refl eq_refl)).
    reflexivity.
  - apply (proj2 (proj2 delete_tolerates_not_found exampleGroup
                    (scripted [] (Failure notFound) (Some throttled))
                    "111111111111" "ns" "g1" throttled eq_refl eq_refl)).
    reflexivity.
Defined.

Example delete_surfaces_other_errors :
  resourceAwsQuickSightDataSourceDelete exampleData
    (scripted [] (Failure notFound) (Some throttled))
  = Some (errorString
      "Error deleting QuickSight Data Source 111111111111/ds1: ThrottlingException: rate exceeded").
Proof. reflexivity. Qed.

(** * Further properties of the operations *)

(** ** Accepted identifiers *)

Lemma Cut_Some_inv sep s before after :
  Cut sep s = Some (before, after) ->
  s = before +:+ String sep after /\ ~ In sep (list_ascii_of_string before).
Proof.
  revert before. induction s as [|c s IH]; simpl; intros before; [discriminate|].
  destruct (Ascii.eqb c sep) eqn:E.
  - apply Ascii.eqb_eq in E. subst c. intros [= <- <-]. simpl. tauto.
  - destruct (Cut sep s) as [[b0 a0]|]; [|discriminate].
    intros [= <- <-]. destruct (IH b0 eq_refl) as [-> Hnot]. split.
    + reflexivity.
    + simpl. intros [H | H]; [|tauto]. subst c.
      rewrite Ascii.eqb_refl in E. discriminate.
Qed.

Lemma Cut_without_separator sep s :
  ~ In sep (list_ascii_of_string s) -> Cut sep s = None.
Proof.
  induction s as [|c s IH]; simpl; intros Hnot; [reflexivity|].
  destruct (Ascii.eqb c sep) eqn:E.
  - apply Ascii.eqb_eq in E. tauto.
  - rewrite IH by tauto. reflexivity.
Qed.

Lemma eqb_empty_false_inv s : String.eqb s "" = false -> s <> "".
Proof. intros H. apply String.eqb_neq. exact H. Qed.

(** X1: an identifier that the data-source parser accepts is its two parts
    joined by '/'; both parts are non-empty and the first holds no '/'. *)
Theorem data_source_identifier_is_joined_parts (id a b : string) :
  resourceAwsQuickSightDataSourceParseID id = (a, b, None) ->
  id = Sprintf2 a b /\ a <> "" /\ b <> "" /\ no_slash a.
Proof.
  rewrite DataSourceParseID_Cut.
  destruct (Cut slash id) as [[a0 b0]|] eqn:E; [|discriminate].
  destruct (String.eqb a0 "") eqn:Ea; [discriminate|].
  destruct (String.eqb b0 "") eqn:Eb; [discriminate|].
  simpl. intros [= <- <-].
  destruct (Cut_Some_inv _ _ _ _ E) as [Hid Hnot].
  repeat split.
  - rewrite Sprintf2_String. exact Hid.
  - apply eqb_empty_false_inv, Ea.
  - apply eqb_empty_false_inv, Eb.
  - exact Hnot.
Qed.

Lemma data_source_identifier_is_joined_parts_witness :
  "111111111111/ds/1" = Sprintf2 "111111111111" "ds/1" /\
  "111111111111" <> "" /\ "ds/1" <> "" /\ no_slash "111111111111".
Proof.
  apply (data_source_identifier_is_joined_parts "111111111111/ds/1").
  reflexivity.
Defined.

(** X2: an identifier that the group parser accepts is its three parts
    joined by '/'; the parts are non-empty and the first two hold no '/'. *)
Theorem group_identifier_is_joined_parts (id a b c : string) :
  resourceAwsQuickSightGroupParseID id = (a, b, c, None) ->
  id = Sprintf3 a b c /\ a <> "" /\ b <> "" /\ c <> ""
  /\ no_slash a /\ no_slash b.
Proof.
  rewrite GroupParseID_Cut.
  destruct (Cut slash id) as [[a0 rest]|] eqn:E; [|discriminate].
  destruct (Cut slash rest) as [[b0 c0]|] eqn:E'; [|discriminate].
  destruct (String.eqb a0 "") eqn:Ea; [discriminate|].
  destruct (String.eqb b0 "") eqn:Eb; [discriminate|].
  destruct (String.eqb c0 "") eqn:Ec; [discriminate|].
  simpl. intros [= <- <- <-].
  destruct (Cut_Some_inv _ _ _ _ E) as [Hid Hnot].
  destruct (Cut_Some_inv _ _ _ _ E') as [Hrest Hnot'].
  repeat split; try (apply eqb_empty_false_inv; assumption); try assumption.
  rewrite Sprintf3_String, Hid, Hrest. reflexivity.
Qed.

(** The first part of an accepted group identifier. *)
Lemma group_parse_first_part (id a b c : string) :
  resourceAwsQuickSightGroupParseID id = (a, b, c, None) ->
  a <> "" /\ no_slash a /\ exists rest, id = a +:+ "/" +:+ rest.
Proof.
  rewrite GroupParseID_Cut.
  destruct (Cut slash id) as [[a0 rest]|] eqn:E; [|discriminate].
  destruct (Cut slash rest) as [[b0 c0]|]; [|discriminate].
  destruct (String.eqb a0 "") eqn:Ea; [discriminate|].
  destruct (String.eqb b0 ""); [discriminate|].
  destruct (String.eqb c0 ""); [discriminate|].
  simpl. intros [= <- <- <-].
  destruct (Cut_Some_inv _ _ _ _ E) as [Hid Hnot].
  split; [apply eqb_empty_false_inv, Ea|]. split; [exact Hnot|].
  exists rest. exact Hid.
Qed.

Lemma group_identifier_is_joined_parts_witness :
  "111111111111/ns/g/1" = Sprintf3 "111111111111" "ns" "g/1" /\
  "111111111111" <> "" /\ "ns" <> "" /\ "g/1" <> ""
  /\ no_slash "111111111111" /\ no_slash "ns".
Proof.
  apply (group_identifier_is_joined_parts "111111111111/ns/g/1").
  reflexivity.
Defined.

(** ** The data-source read, on every path *)

(** The read, once its identifier is parsed. *)
Lemma read_of_parsed_identifier backoff d c awsAccountId dataSourceId :
  resourceAwsQuickSightDataSourceParseID (Id d)
  = (awsAccountId, dataSourceId, None) ->
  resourceAwsQuickSightDataSourceRead backoff d c
  = (let run := readPoller backoff d
                  {| in_AwsAccountId := Some awsAccountId;
                     in_DataSourceId := Some dataSourceId |} c in
     if isAWSErr (run_err run) ErrCodeResourceNotFoundException ""
     then (Returned None, SetId "" d, run_state run)
     else match run_err run with
          | Some e =>
              (Returned (Some (errorString
                 ("Error describing QuickSight Data Source (" +:+ Id d
                    +:+ "): " +:+ Error e))), d, run_state run)
          | None => (Panicked, d, run_state run)
          end).
Proof.
  intros Hparse. unfold resourceAwsQuickSightDataSourceRead.
  rewrite Hparse. cbv zeta.
  destruct (isAWSErr _ _ _); [reflexivity|].
  destruct (run_err _); reflexivity.
Qed.

(** A describe call of the read is a describe call of its poller. *)
Lemma read_fetch_is_poller_fetch backoff d c j :
  (j < fetchCount c (snd (resourceAwsQuickSightDataSourceRead backoff d c)))%nat ->
  exists awsAccountId dataSourceId,
    resourceAwsQuickSightDataSourceParseID (Id d)
    = (awsAccountId, dataSourceId, None) /\
    (j < fetchCount c
           (run_state (readPoller backoff d
                         {| in_AwsAccountId := Some awsAccountId;
                            in_DataSourceId := Some dataSourceId |} c)))%nat.
Proof.
  destruct (resourceAwsQuickSightDataSourceParseID (Id d))
    as [[awsAccountId dataSourceId] [err|]] eqn:Hparse.
  - unfold resourceAwsQuickSightDataSourceRead. rewrite Hparse. simpl.
    unfold fetchCount. lia.
  - rewrite (read_of_parsed_identifier backoff d c _ _ Hparse). cbv zeta.
    intros Hj. exists awsAccountId, dataSourceId. split; [reflexivity|].
    revert Hj. destruct (isAWSErr _ _ _); [intros H; exact H|].
    destruct (run_err _); intros H; exact H.
Qed.

Lemma lookup_SetId v d key :
  key <> "id" -> rd_attrs (SetId v d) !! key = rd_attrs d !! key.
Proof.
  intros Hne. unfold SetId. simpl. apply lookup_insert_ne. congruence.
Qed.

(** X3: whatever the service answers, the data-source read leaves the state
    as it was or runs [d.SetId("")] on it, so that no attribute other than
    [id] ever changes; it returns nil only on the path that clears the
    identifier. *)
Theorem read_only_ever_clears_identifier
    (backoff : positive) (d : ResourceData) (c : Conn) :
  (snd (fst (resourceAwsQuickSightDataSourceRead backoff d c)) = d
   \/ snd (fst (resourceAwsQuickSightDataSourceRead backoff d c)) = SetId "" d) /\
  (fst (fst (resourceAwsQuickSightDataSourceRead backoff d c)) = Returned None ->
   snd (fst (resourceAwsQuickSightDataSourceRead backoff d c)) = SetId "" d) /\
  (forall key, key <> "id" ->
     rd_attrs (snd (fst (resourceAwsQuickSightDataSourceRead backoff d c))) !! key
     = rd_attrs d !! key).
Proof.
  destruct (resourceAwsQuickSightDataSourceParseID (Id d))
    as [[awsAccountId dataSourceId] [err|]] eqn:Hparse.
  - unfold resourceAwsQuickSightDataSourceRead. rewrite Hparse. simpl.
    split; [left; reflexivity|]. split; [discriminate | reflexivity].
  - rewrite (read_of_parsed_identifier backoff d c _ _ Hparse). cbv zeta.
    destruct (isAWSErr _ _ _); simpl.
    + split; [right; reflexivity|]. split; [reflexivity|].
      intros key Hkey. apply lookup_SetId. exact Hkey.
    + destruct (run_err _); simpl;
        (split; [left; reflexivity|]; split; [discriminate | reflexivity]).
Qed.

Lemma read_only_ever_clears_identifier_witness :
  snd (fst (resourceAwsQuickSightDataSourceRead Second exampleData goneAfterOne))
  = SetId "" exampleData.
Proof.
  apply (proj1 (proj2 (read_only_ever_clears_identifier Second exampleData
                         goneAfterOne))).
  vm_compute. reflexivity.
Defined.

(** X5: a fetch that fails with an error other than the not-found error is
    the last one; the read returns that error behind its own text, which
    names the identifier, and leaves the state as it was. *)
Theorem read_returns_fetch_error
    (backoff : positive) (d : ResourceData) (c : Conn) (j : nat) (e : error) :
  (j < fetchCount c (snd (resourceAwsQuickSightDataSourceRead backoff d c)))%nat ->
  fetched c j = Failure e ->
  isAWSErr (Some e) ErrCodeResourceNotFoundException "" = false ->
  resourceAwsQuickSightDataSourceRead backoff d c
  = (Returned (Some (errorString
       ("Error describing QuickSight Data Source (" +:+ Id d +:+ "): "
          +:+ Error e))),
     d, connAfter c (S j)).
Proof.
  intros Hj Hfetch Hother.
  destruct (read_fetch_is_poller_fetch backoff d c j Hj)
    as [awsAccountId [dataSourceId [Hparse Hcount]]].
  rewrite (read_of_parsed_identifier backoff d c _ _ Hparse). cbv zeta.
  assert (Hnip : ~ inProgress (fetched c j)).
  { rewrite Hfetch. intros [s [Hs _]]. discriminate. }
  destruct (readPoller_stops backoff d _ c j Hcount Hnip) as [Hst Herr].
  rewrite (describeAttempt_failure d _ (connAfter c j) e) in Herr
    by (rewrite fetched_connAfter, Nat.add_0_r; exact Hfetch).
  simpl in Herr. rewrite Herr, Hother, Hst. reflexivity.
Qed.

Lemma read_returns_fetch_error_witness :
  resourceAwsQuickSightDataSourceRead Second exampleData
    (scripted [describedAs "UPDATE_IN_PROGRESS"] (Failure throttled) None)
  = (Returned (Some (errorString
       ("Error describing QuickSight Data Source (" +:+ Id exampleData +:+ "): "
          +:+ Error throttled))),
     exampleData,
     connAfter (scripted [describedAs "UPDATE_IN_PROGRESS"] (Failure throttled) None) 2).
Proof.
  apply (read_returns_fetch_error Second exampleData
           (scripted [describedAs "UPDATE_IN_PROGRESS"] (Failure throttled) None)
           1 throttled).
  - vm_compute. lia.
  - reflexivity.
  - reflexivity.
Defined.

(** X6: a fetch that reports creation-failed or update-failed is the last
    one; the read returns an error that names the identifier and the
    status, and leaves the state, identifier included, as it was. *)
Theorem read_returns_failed_status
    (backoff : positive) (d : ResourceData) (c : Conn) (j : nat)
    (status : string) :
  (j < fetchCount c (snd (resourceAwsQuickSightDataSourceRead backoff d c)))%nat ->
  reportedStatus (fetched c j) = Some status ->
  failedStatus status ->
  resourceAwsQuickSightDataSourceRead backoff d c
  = (Returned (Some (errorString
       ("Error describing QuickSight Data Source (" +:+ Id d
          +:+ "): Data Source operation failed (" +:+ Id d +:+ "): "
          +:+ status))),
     d, connAfter c (S j)).
Proof.
  intros Hj Hstatus Hfailed.
  destruct (read_fetch_is_poller_fetch backoff d c j Hj)
    as [awsAccountId [dataSourceId [Hparse Hcount]]].
  rewrite (read_of_parsed_identifier backoff d c _ _ Hparse). cbv zeta.
  assert (Hnip : ~ inProgress (fetched c j)).
  { intros [s [Hs Hip]]. rewrite Hstatus in Hs. injection Hs as <-.
    exact (failed_not_inProgress status Hfailed Hip). }
  destruct (readPoller_stops backoff d _ c j Hcount Hnip) as [Hst Herr].
  rewrite (describeAttempt_failed d _ (connAfter c j) status) in Herr;
    [|rewrite fetched_connAfter, Nat.add_0_r; exact Hstatus | exact Hfailed].
  simpl in Herr. rewrite Herr, Hst. reflexivity.
Qed.

Lemma read_returns_failed_status_witness :
  resourceAwsQuickSightDataSourceRead Second exampleData failsAfterOne
  = (Returned (Some (errorString
       ("Error describing QuickSight Data Source (" +:+ Id exampleData
          +:+ "): Data Source operation failed (" +:+ Id exampleData +:+ "): "
          +:+ "CREATION_FAILED"))),
     exampleData, connAfter failsAfterOne 2).
Proof.
  apply (read_returns_failed_status Second exampleData failsAfterOne 1
           "CREATION_FAILED").
  - vm_compute. lia.
  - reflexivity.
  - left. reflexivity.
Defined.

(** ** Identifiers without a separator *)

(** X7: an identifier that holds no '/', the empty identifier that a read
    leaves behind included, is refused by the read and by the delete of a
    data source and by the read, the update and the delete of a group: each
    returns the format error of its parser, the state stays as it was and no
    describe call is made. *)
Theorem operations_refuse_identifier_without_separator
    (backoff : positive) (d : ResourceData) (c : Conn) (g : GroupService) :
  no_slash (Id d) ->
  resourceAwsQuickSightDataSourceRead backoff d c
  = (Returned (Some (errorString ("unexpected format of ID (" +:+ Id d
       +:+ "), expected AWS_ACCOUNT_ID/DATA_SOURCE_ID"))), d, c) /\
  resourceAwsQuickSightDataSourceDelete d c
  = Some (errorString ("unexpected format of ID (" +:+ Id d
       +:+ "), expected AWS_ACCOUNT_ID/DATA_SOURCE_ID")) /\
  resourceAwsQuickSightGroupRead d g
  = (Returned (Some (errorString ("unexpected format of ID (" +:+ Id d
       +:+ "), expected AWS_ACCOUNT_ID/NAMESPACE/GROUP_NAME"))), d) /\
  resourceAwsQuickSightGroupUpdate d g
  = (Returned (Some (errorString ("unexpected format of ID (" +:+ Id d
       +:+ "), expected AWS_ACCOUNT_ID/NAMESPACE/GROUP_NAME"))), d) /\
  resourceAwsQuickSightGroupDelete d c
  = Some (errorString ("unexpected format of ID (" +:+ Id d
       +:+ "), expected AWS_ACCOUNT_ID/NAMESPACE/GROUP_NAME")).
Proof.
  intros Hno. apply Cut_without_separator in Hno.
  pose proof (DataSourceParseID_Cut (Id d)) as H2.
  pose proof (GroupParseID_Cut (Id d)) as H3.
  rewrite Hno in H2, H3.
  unfold resourceAwsQuickSightDataSourceRead,
    resourceAwsQuickSightDataSourceDelete, resourceAwsQuickSightGroupRead,
    resourceAwsQuickSightGroupUpdate, resourceAwsQuickSightGroupDelete.
  rewrite H2, H3. repeat split.
Qed.

Lemma operations_refuse_identifier_without_separator_witness :
  resourceAwsQuickSightDataSourceRead Second (SetId "" exampleData) readyAtOnce
  = (Returned (Some (errorString ("unexpected format of ID ("
       +:+ Id (SetId "" exampleData)
       +:+ "), expected AWS_ACCOUNT_ID/DATA_SOURCE_ID"))),
     SetId "" exampleData, readyAtOnce).
Proof.
  apply (operations_refuse_identifier_without_separator Second
           (SetId "" exampleData) readyAtOnce exampleGroupService).
  unfold no_slash. simpl. tauto.
Defined.

(** ** The group read and update *)

Lemma lookup_SetAttr key p d i :
  rd_attrs (SetAttr key p d) !! i
  = if decide (key = i) then p else rd_attrs d !! i.
Proof.
  unfold SetAttr. simpl. destruct p as [v|].
  - apply lookup_insert.
  - rewrite lookup_delete. reflexivity.
Qed.

Lemma Get_SetAttr_ne key key' p d :
  key' <> key -> Get key (SetAttr key' p d) = Get key d.
Proof.
  intros Hne. unfold Get. rewrite lookup_SetAttr.
  destruct (decide (key' = key)); [contradiction | reflexivity].
Qed.

Lemma Get_SetAttr_eq key v d : Get key (SetAttr key (Some v) d) = v.
Proof.
  unfold Get. rewrite lookup_SetAttr.
  destruct (decide (key = key)); [reflexivity | contradiction].
Qed.

(** The attributes that a successful group read writes. *)
Lemma group_read_of_parsed_identifier d g awsAccountID namespace groupName :
  resourceAwsQuickSightGroupParseID (Id d)
  = (awsAccountID, namespace, groupName, None) ->
  resourceAwsQuickSightGroupRead d g
  = match describeGroup g {| gin_AwsAccountId := Some awsAccountID;
                             gin_Namespace := Some namespace;
                             gin_GroupName := Some groupName |} with
    | Failure e =>
        if isAWSErr (Some e) ErrCodeResourceNotFoundException ""
        then (Returned None, SetId "" d)
        else (Returned (Some (errorString
                ("Error describing QuickSight Group (" +:+ Id d +:+ "): "
                   +:+ Error e))), d)
    | Response r =>
        match gout_Group r with
        | None => (Panicked, d)
        | Some grp =>
            (Returned None,
             SetAttr "namespace" (Some namespace)
               (SetAttr "description" (grp_Description grp)
                  (SetAttr "group_name" (grp_GroupName grp)
                     (SetAttr "aws_account_id" (Some awsAccountID)
                        (SetAttr "arn" (grp_Arn grp) d)))))
        end
    end.
Proof.
  intros Hparse. unfold resourceAwsQuickSightGroupRead, DescribeGroup.
  rewrite Hparse.
  destruct (describeGroup g _) as [r|e]; simpl.
  - destruct (gout_Group r); reflexivity.
  - destruct (isAWSErr (Some e) ErrCodeResourceNotFoundException "");
      reflexivity.
Qed.

(** X8: a group read that returns an error, or panics on a response without
    a group, leaves the state exactly as it was; and the identifier is kept
    on every path but the one that clears it, which changes nothing else. *)
Theorem group_read_failure_keeps_state (d : ResourceData) (g : GroupService) :
  (fst (resourceAwsQuickSightGroupRead d g) <> Returned None ->
   snd (resourceAwsQuickSightGroupRead d g) = d) /\
  (Id (snd (resourceAwsQuickSightGroupRead d g)) = Id d
   \/ snd (resourceAwsQuickSightGroupRead d g) = SetId "" d).
Proof.
  destruct (resourceAwsQuickSightGroupParseID (Id d))
    as [[[a n] name] [err|]] eqn:Hparse.
  - unfold resourceAwsQuickSightGroupRead. rewrite Hparse. simpl.
    split; [reflexivity | left; reflexivity].
  - rewrite (group_read_of_parsed_identifier d g a n name Hparse).
    destruct (describeGroup g _) as [r|e].
    + destruct (gout_Group r) as [grp|]; simpl.
      * split; [intros H; contradiction | left; reflexivity].
      * split; [reflexivity | left; reflexivity].
    + destruct (isAWSErr (Some e) ErrCodeResourceNotFoundException ""); simpl.
      * split; [intros H; contradiction | right; reflexivity].
      * split; [reflexivity | left; reflexivity].
Qed.

Lemma group_read_failure_keeps_state_witness :
  snd (resourceAwsQuickSightGroupRead exampleGroup throttledGroupService)
  = exampleGroup.
Proof.
  apply (proj1 (group_read_failure_keeps_state exampleGroup
                  throttledGroupService)).
  vm_compute. discriminate.
Defined.

(** X9: after a group read that returns nil and keeps the identifier, the
    identifier is unchanged and starts with the attribute [aws_account_id],
    which is non-empty and holds no '/', followed by a '/'. *)
Theorem group_read_sets_account_of_identifier
    (d : ResourceData) (g : GroupService) :
  fst (resourceAwsQuickSightGroupRead d g) = Returned None ->
  Id (snd (resourceAwsQuickSightGroupRead d g)) <> "" ->
  Id (snd (resourceAwsQuickSightGroupRead d g)) = Id d /\
  Get "aws_account_id" (snd (resourceAwsQuickSightGroupRead d g)) <> "" /\
  no_slash (Get "aws_account_id" (snd (resourceAwsQuickSightGroupRead d g))) /\
  exists rest,
    Id d = Get "aws_account_id" (snd (resourceAwsQuickSightGroupRead d g))
             +:+ "/" +:+ rest.
Proof.
  destruct (resourceAwsQuickSightGroupParseID (Id d))
    as [[[a n] name] [err|]] eqn:Hparse.
  - unfold resourceAwsQuickSightGroupRead. rewrite Hparse. discriminate.
  - rewrite (group_read_of_parsed_identifier d g a n name Hparse).
    destruct (group_parse_first_part _ _ _ _ Hparse) as [Ha [Hsa Hid]].
    destruct (describeGroup g _) as [r|e].
    + destruct (gout_Group r) as [grp|]; simpl; [|discriminate].
      intros _ _.
      rewrite !(Get_SetAttr_ne "aws_account_id") by discriminate.
      rewrite Get_SetAttr_eq.
      split; [reflexivity|]. split; [exact Ha|]. split; [exact Hsa|].
      exact Hid.
    + destruct (isAWSErr (Some e) ErrCodeResourceNotFoundException "");
        simpl; [|discriminate].
      intros _ H. contradiction.
Qed.

Lemma group_read_sets_account_of_identifier_witness :
  Id (snd (resourceAwsQuickSightGroupRead exampleGroup exampleGroupService))
  = Id exampleGroup /\
  Get "aws_account_id"
    (snd (resourceAwsQuickSightGroupRead exampleGroup exampleGroupService)) <> "" /\
  no_slash (Get "aws_account_id"
    (snd (resourceAwsQuickSightGroupRead exampleGroup exampleGroupService))) /\
  exists rest,
    Id exampleGroup
    = Get "aws_account_id"
        (snd (resourceAwsQuickSightGroupRead exampleGroup exampleGroupService))
        +:+ "/" +:+ rest.
Proof.
  apply (group_read_sets_account_of_identifier exampleGroup exampleGroupService).
  - vm_compute. reflexivity.
  - vm_compute. discriminate.
Defined.

Lemma ResourceData_eq (x y : ResourceData) :
  rd_id x = rd_id y -> rd_attrs x = rd_attrs y -> x = y.
Proof. destruct x, y. simpl. intros -> ->. reflexivity. Qed.

(** X10: a group read run a second time against the same answers of the
    service leaves the state that the first run left. *)
Theorem group_read_twice (d : ResourceData) (g : GroupService) :
  snd (resourceAwsQuickSightGroupRead
         (snd (resourceAwsQuickSightGroupRead d g)) g)
  = snd (resourceAwsQuickSightGroupRead d g).
Proof.
  destruct (resourceAwsQuickSightGroupParseID (Id d))
    as [[[a n] name] [err|]] eqn:Hparse.
  - assert (H : snd (resourceAwsQuickSightGroupRead d g) = d).
    { unfold resourceAwsQuickSightGroupRead. rewrite Hparse. reflexivity. }
    rewrite H. exact H.
  - rewrite (group_read_of_parsed_identifier d g a n name Hparse).
    destruct (describeGroup g _) as [r|e] eqn:Hdescribe.
    + destruct (gout_Group r) as [grp|] eqn:Hgroup; simpl.
      * match goal with
        | |- snd (resourceAwsQuickSightGroupRead ?d5 g) = _ =>
            rewrite (group_read_of_parsed_identifier d5 g a n name Hparse)
        end.
        rewrite Hdescribe, Hgroup. simpl.
        apply ResourceData_eq; [reflexivity|].
        apply map_eq. intros i. rewrite !lookup_SetAttr.
        repeat (destruct (decide _)); try reflexivity; congruence.
      * rewrite (group_read_of_parsed_identifier d g a n name Hparse),
          Hdescribe, Hgroup. reflexivity.
    + destruct (isAWSErr (Some e) ErrCodeResourceNotFoundException "")
        eqn:Hgone; simpl.
      * reflexivity.
      * rewrite (group_read_of_parsed_identifier d g a n name Hparse),
          Hdescribe, Hgone. reflexivity.
Qed.

(** X11: a group update that returns an error or panics leaves the state
    exactly as it was, and the identifier is kept on every path but the one
    that clears it. *)
Theorem group_update_failure_keeps_state (d : ResourceData) (g : GroupService) :
  (fst (resourceAwsQuickSightGroupUpdate d g) <> Returned None ->
   snd (resourceAwsQuickSightGroupUpdate d g) = d) /\
  (Id (snd (resourceAwsQuickSightGroupUpdate d g)) = Id d
   \/ snd (resourceAwsQuickSightGroupUpdate d g) = SetId "" d).
Proof.
  destruct (resourceAwsQuickSightGroupParseID (Id d))
    as [[[a n] name] [err|]] eqn:Hparse;
    unfold resourceAwsQuickSightGroupUpdate; rewrite Hparse.
  - simpl. split; [reflexivity | left; reflexivity].
  - cbv zeta. destruct (updateGroup g _) as [e|].
    + destruct (isAWSErr (Some e) ErrCodeResourceNotFoundException ""); simpl.
      * split; [intros H; contradiction | right; reflexivity].
      * split; [reflexivity | left; reflexivity].
    + simpl. rewrite (group_read_of_parsed_identifier d g a n name Hparse).
      destruct (describeGroup g _) as [r|e].
      * destruct (gout_Group r) as [grp|]; simpl.
        { split; [intros H; contradiction | left; reflexivity]. }
        split; [reflexivity | left; reflexivity].
      * destruct (isAWSErr (Some e) ErrCodeResourceNotFoundException "");
          simpl.
        { split; [intros H; contradiction | right; reflexivity]. }
        split; [reflexivity | left; reflexivity].
Qed.

Lemma group_update_failure_keeps_state_witness :
  snd (resourceAwsQuickSightGroupUpdate exampleGroup throttledGroupService)
  = exampleGroup.
Proof.
  apply (proj1 (group_update_failure_keeps_state exampleGroup
                  throttledGroupService)).
  vm_compute. discriminate.
Defined.

(** ** The ARN of a data source *)

Lemma append_cancel_l (p x y : string) : p +:+ x = p +:+ y -> x = y.
Proof.
  induction p as [|c p IH]; simpl; intros H; [exact H|].
  injection H as H. exact (IH H).
Qed.

(** X12: the ARN names one data source only: two ARNs built from regions and
    account ids without ':' are equal only if the region, the account id and
    the data-source id are. *)
Theorem quicksightDataSourceArn_injective
    (region account id region' account' id' : string) :
  no_colon region -> no_colon account ->
  no_colon region' -> no_colon account' ->
  quicksightDataSourceArn region account id
  = quicksightDataSourceArn region' account' id' ->
  region = region' /\ account = account' /\ id = id'.
Proof.
  unfold no_colon, quicksightDataSourceArn.
  intros Hr Ha Hr' Ha' Heq.
  apply (append_cancel_l "arn:aws:quicksight:") in Heq.
  assert (Hcut : Cut ":" (region +:+ ":" +:+ account +:+ ":datasource/" +:+ id)
                 = Cut ":" (region' +:+ ":" +:+ account' +:+ ":datasource/" +:+ id'))
    by (rewrite Heq; reflexivity).
  change (region +:+ ":" +:+ account +:+ ":datasource/" +:+ id)
    with (region +:+ String ":" (account +:+ ":datasource/" +:+ id)) in Hcut.
  change (region' +:+ ":" +:+ account' +:+ ":datasource/" +:+ id')
    with (region' +:+ String ":" (account' +:+ ":datasource/" +:+ id')) in Hcut.
  rewrite !Cut_append in Hcut by assumption.
  injection Hcut as -> Hrest.
  assert (Hcut : Cut ":" (account +:+ ":datasource/" +:+ id)
                 = Cut ":" (account' +:+ ":datasource/" +:+ id'))
    by (rewrite Hrest; reflexivity).
  change (account +:+ ":datasource/" +:+ id)
    with (account +:+ String ":" ("datasource/" +:+ id)) in Hcut.
  change (account' +:+ ":datasource/" +:+ id')
    with (account' +:+ String ":" ("datasource/" +:+ id')) in Hcut.
  rewrite !Cut_append in Hcut by assumption.
  injection Hcut as -> Hid.
  change (id = id') in Hid. subst id'.
  repeat split.
Qed.

Lemma no_colon_region : no_colon "us-east-1".
Proof.
  unfold no_colon. simpl. intros H. decompose [or] H; discriminate || assumption.
Qed.

Lemma no_colon_account : no_colon "111111111111".
Proof.
  unfold no_colon. simpl. intros H. decompose [or] H; discriminate || assumption.
Qed.

Lemma quicksightDataSourceArn_injective_witness :
  "us-east-1" = "us-east-1" /\ "111111111111" = "111111111111" /\ "ds:1" = "ds:1".
Proof.
  apply (quicksightDataSourceArn_injective
           "us-east-1" "111111111111" "ds:1" "us-east-1" "111111111111" "ds:1");
    try exact no_colon_region; try exact no_colon_account.
  reflexivity.
Defined.

Example quicksightDataSourceArn_example :
  quicksightDataSourceArn "us-east-1" "111111111111" "ds1"
  = "arn:aws:quicksight:us-east-1:111111111111:datasource/ds1".
Proof. reflexivity. Qed.

(** ** The request builders *)

Example credentials_example :
  resourceAwsQuickSightDataSourceCredentials
    (fun _ => VSet (Some [VMap [("credential_pair", VSet (Some
       [VMap [("username", VString "admin"); ("password", VString "")]]))]]))
  = Done (Some {| CredentialPair_ :=
                    Some {| Username := Some "admin"; Password := None |} |}).
Proof. reflexivity. Qed.

Example parameters_athena_example :
  resourceAwsQuickSightDataSourceParameters (rawParameters [("athena", exampleAthena)])
  = Done (Some "ATHENA",
          Some {| p_AmazonElasticsearchParameters := None;
                  p_AthenaParameters := Some {| athena_WorkGroup := Some "primary" |};
                  p_AuroraParameters := None;
                  p_AuroraPostgreSqlParameters := None;
                  p_AwsIotAnalyticsParameters := None;
                  p_JiraParameters := None;
                  p_MariaDbParameters := None;
                  p_MySqlParameters := None;
                  p_PostgreSqlParameters := None;
                  p_PrestoParameters := None;
                  p_RedshiftParameters := None;
                  p_S3Parameters := None;
                  p_ServiceNowParameters := None;
                  p_SnowflakeParameters := None;
                  p_SparkParameters := None;
                  p_SqlServerParameters := None;
                  p_TeradataParameters := None;
                  p_TwitterParameters := None |}).
Proof. reflexivity. Qed.

Example parameters_s3_example :
  resourceAwsQuickSightDataSourceParameters (rawParameters [("s3", exampleS3)])
  = Panic.
Proof. reflexivity. Qed.

Example parameters_two_groups_example :
  exists p,
    resourceAwsQuickSightDataSourceParameters
      (rawParameters [("twitter", exampleTwitter); ("athena", exampleAthena)])
    = Done (Some "TWITTER", Some p)
    /\ p_AthenaParameters p = Some {| athena_WorkGroup := Some "primary" |}.
Proof. eexists. split; reflexivity. Qed.

Lemma nonEmptyString_not_empty m key r :
  nonEmptyString m key = Done r -> r <> Some "".
Proof.
  unfold nonEmptyString. destruct (mapLookup m key) as [v|].
  - destruct v; simpl; try discriminate.
    destruct (String.eqb s "") eqn:E; intros [= <-]; [discriminate|].
    intros [= ->]. discriminate.
  - intros [= <-]. discriminate.
Qed.

Lemma credentialPairLoop_not_empty items r :
  credentialPairLoop items = Done (Some r) ->
  exists pair, CredentialPair_ r = Some pair
               /\ Username pair <> Some "" /\ Password pair <> Some "".
Proof.
  destruct items as [|v rest]; simpl; [discriminate|].
  destruct v; simpl; try discriminate.
  destruct (nonEmptyString entries "username") as [username|] eqn:Hu;
    simpl; [|discriminate].
  destruct (nonEmptyString entries "password") as [password|] eqn:Hp;
    simpl; [|discriminate].
  intros [= <-]. eexists. split; [reflexivity|]. simpl. split.
  - exact (nonEmptyString_not_empty _ _ _ Hu).
  - exact (nonEmptyString_not_empty _ _ _ Hp).
Qed.

Lemma credentialsLoop_not_empty items r :
  credentialsLoop items = Done (Some r) ->
  exists pair, CredentialPair_ r = Some pair
               /\ Username pair <> Some "" /\ Password pair <> Some "".
Proof.
  induction items as [|v rest IH]; simpl; [discriminate|].
  destruct v; simpl; try discriminate.
  destruct (guardedSet (mapIndex entries "credential_pair")) as [entered|];
    simpl; [|discriminate].
  destruct entered as [pairs|]; [|exact IH].
  destruct (credentialPairLoop pairs) as [found|] eqn:Hfound;
    simpl; [|discriminate].
  destruct found as [result|]; [|exact IH].
  intros [= <-]. exact (credentialPairLoop_not_empty _ _ Hfound).
Qed.

(** X13: the credentials that the builder returns always carry a credential
    pair, and in it neither the user name nor the password is ever the
    empty string: an empty one is left out. *)
Theorem credentials_never_carry_empty_strings
    (d : RawData) (r : DataSourceCredentials) :
  resourceAwsQuickSightDataSourceCredentials d = Done (Some r) ->
  exists pair, CredentialPair_ r = Some pair
               /\ Username pair <> Some "" /\ Password pair <> Some "".
Proof.
  unfold resourceAwsQuickSightDataSourceCredentials.
  destruct (d "credentials"); simpl; try discriminate.
  destruct items as [items|]; simpl; [|discriminate].
  apply credentialsLoop_not_empty.
Qed.

Lemma credentials_never_carry_empty_strings_witness :
  exists pair,
    CredentialPair_ {| CredentialPair_ :=
                         Some {| Username := Some "admin"; Password := None |} |}
    = Some pair
    /\ Username pair <> Some "" /\ Password pair <> Some "".
Proof.
  apply (credentials_never_carry_empty_strings
           (fun _ => VSet (Some [VMap [("credential_pair", VSet (Some
              [VMap [("username", VString "admin");
                     ("password", VString "")]]))]]))).
  reflexivity.
Defined.

(** X14: each of the four builders returns only when [d.Get] hands it nil or
    a set that is not the nil pointer; on every other value, a list (a
    [[]interface{}]) among them, it panics. The schema of the resource
    declares the four attributes as lists (lines 41, 82, 491 and 513). *)
Theorem builders_return_only_on_sets (d : RawData) :
  (forall r, resourceAwsQuickSightDataSourceCredentials d = Done r ->
             d "credentials" = VNil
             \/ exists items, d "credentials" = VSet (Some items)) /\
  (forall r, resourceAwsQuickSightDataSourceParameters d = Done r ->
             d "parameters" = VNil
             \/ exists items, d "parameters" = VSet (Some items)) /\
  (forall r, resourceAwsQuickSightDataSourceSslProperties d = Done r ->
             d "ssl_properties" = VNil
             \/ exists items, d "ssl_properties" = VSet (Some items)) /\
  (forall r, resourceAwsQuickSightDataSourceVpcConnectionProperties d = Done r ->
             d "vpc_connection_properties" = VNil
             \/ exists items, d "vpc_connection_properties" = VSet (Some items)).
Proof.
  unfold resourceAwsQuickSightDataSourceCredentials,
    resourceAwsQuickSightDataSourceParameters,
    resourceAwsQuickSightDataSourceSslProperties,
    resourceAwsQuickSightDataSourceVpcConnectionProperties.
  split; [|split; [|split]]; intros r.
  - destruct (d "credentials") as [| | | | | |items|]; simpl;
      try discriminate; [left; reflexivity|].
    destruct items as [items|]; simpl; [|discriminate].
    intros _. right. exists items. reflexivity.
  - destruct (d "parameters") as [| | | | | |items|]; simpl;
      try discriminate; [left; reflexivity|].
    destruct items as [items|]; simpl; [|discriminate].
    intros _. right. exists items. reflexivity.
  - destruct (d "ssl_properties") as [| | | | | |items|]; simpl;
      try discriminate; [left; reflexivity|].
    destruct items as [items|]; simpl; [|discriminate].
    intros _. right. exists items. reflexivity.
  - destruct (d "vpc_connection_properties") as [| | | | | |items|]; simpl;
      try discriminate; [left; reflexivity|].
    destruct items as [items|]; simpl; [|discriminate].
    intros _. right. exists items. reflexivity.
Qed.

Lemma builders_return_only_on_sets_witness :
  rawParameters [("athena", exampleAthena)] "parameters" = VNil
  \/ exists items,
       rawParameters [("athena", exampleAthena)] "parameters" = VSet (Some items).
Proof.
  eapply (proj1 (proj2 (builders_return_only_on_sets
                          (rawParameters [("athena", exampleAthena)])))).
  reflexivity.
Defined.

Example builders_panic_on_a_list :
  resourceAwsQuickSightDataSourceCredentials (fun _ => VList []) = Panic /\
  resourceAwsQuickSightDataSourceParameters (fun _ => VList []) = Panic /\
  resourceAwsQuickSightDataSourceSslProperties (fun _ => VList []) = Panic /\
  resourceAwsQuickSightDataSourceVpcConnectionProperties (fun _ => VList []) = Panic.
Proof. repeat split. Qed.

Lemma vpcConnectionPropertiesLoop_not_empty items r :
  vpcConnectionPropertiesLoop items = Done (Some r) ->
  exists arn, VpcConnectionArn r = Some arn /\ arn <> "".
Proof.
  induction items as [|v rest IH]; simpl; [discriminate|].
  destruct v; simpl; try discriminate.
  destruct (mapIndex entries "vpc_connection_arn"); simpl;
    try discriminate; [exact IH|].
  destruct (String.eqb s "") eqn:E; [exact IH|].
  intros [= <-]. exists s. split; [reflexivity|].
  apply String.eqb_neq. exact E.
Qed.

(** X15: the VPC connection properties that the builder returns always
    carry a non-empty ARN; and it panics when the first element of the set
    holds a bool under [vpc_connection_arn], the type that the schema
    declares for it (line 519). *)
Theorem vpc_connection_arn_is_a_non_empty_string :
  (forall (d : RawData) (r : VpcConnectionProperties),
      resourceAwsQuickSightDataSourceVpcConnectionProperties d = Done (Some r) ->
      exists arn, VpcConnectionArn r = Some arn /\ arn <> "") /\
  (forall (d : RawData) (m : list (string * value)) (rest : list value)
          (b : bool),
      d "vpc_connection_properties" = VSet (Some (VMap m :: rest)) ->
      mapIndex m "vpc_connection_arn" = VBool b ->
      resourceAwsQuickSightDataSourceVpcConnectionProperties d = Panic).
Proof.
  split.
  - intros d r. unfold resourceAwsQuickSightDataSourceVpcConnectionProperties.
    destruct (d "vpc_connection_properties"); simpl; try discriminate.
    destruct items as [items|]; simpl; [|discriminate].
    apply vpcConnectionPropertiesLoop_not_empty.
  - intros d m rest b Hd Hm.
    unfold resourceAwsQuickSightDataSourceVpcConnectionProperties.
    rewrite Hd. simpl. rewrite Hm. reflexivity.
Qed.

Lemma vpc_connection_arn_is_a_non_empty_string_witness :
  resourceAwsQuickSightDataSourceVpcConnectionProperties
    (fun _ => VSet (Some [VMap [("vpc_connection_arn", VBool true)]])) = Panic.
Proof.
  apply (proj2 vpc_connection_arn_is_a_non_empty_string
           (fun _ => VSet (Some [VMap [("vpc_connection_arn", VBool true)]]))
           [("vpc_connection_arn", VBool true)] [] true);
    reflexivity.
Defined.

(** The block of [s3] never sets its field: it is skipped or it panics. *)
Lemma s3Block_never_sets m :
  s3Block m = Panic \/ s3Block m = Done None.
Proof.
  unfold s3Block.
  destruct (mapIndex m "s3") as [| | | | | |items|]; simpl; auto.
  destruct items; simpl; auto.
Qed.

Lemma s3Block_panics m :
  mapIndex m "s3" <> VNil -> mapIndex m "s3" <> VSet None -> s3Block m = Panic.
Proof.
  unfold s3Block.
  destruct (mapIndex m "s3") as [| | | | | |items|]; simpl; try reflexivity.
  - intros H. contradiction.
  - destruct items; simpl; [reflexivity|]. intros _ H. contradiction.
Qed.

(** One step through the blocks: a block that panics ends the function. *)
Ltac next_block :=
  match goal with
  | |- context [mbind _ (block ?m ?key ?build)] =>
      destruct (block m key build) as [?|]; simpl; [|try discriminate; try reflexivity]
  end.

Lemma dataSourceParametersOf_panics_on_s3 m :
  mapIndex m "s3" <> VNil -> mapIndex m "s3" <> VSet None ->
  dataSourceParametersOf m = Panic.
Proof.
  intros Hnil Hset. unfold dataSourceParametersOf.
  do 11 next_block.
  rewrite (s3Block_panics m Hnil Hset). reflexivity.
Qed.

Lemma dataSourceParametersOf_result m ty p :
  dataSourceParametersOf m = Done (ty, p) ->
  exists fields, p = Some fields /\ ty = Some (typeOfFields fields)
                 /\ p_S3Parameters fields = None.
Proof.
  unfold dataSourceParametersOf.
  do 11 next_block.
  destruct (s3Block_never_sets m) as [-> | ->]; simpl; [discriminate|].
  do 6 next_block.
  intros [= <- <-]. eexists. split; [reflexivity|].
  split; reflexivity.
Qed.

(** X16: a configuration whose first element of [parameters] has an entry
    [s3] that is neither nil nor the nil set makes the builder panic: the
    entry is asserted to be a set and then to be a map. So no result of the
    builder ever carries S3 parameters. *)
Theorem parameters_panic_on_s3 :
  (forall (d : RawData) (m : list (string * value)) (rest : list value),
      d "parameters" = VSet (Some (VMap m :: rest)) ->
      mapIndex m "s3" <> VNil -> mapIndex m "s3" <> VSet None ->
      resourceAwsQuickSightDataSourceParameters d = Panic) /\
  (forall (d : RawData) (ty : option string) (p : DataSourceParameters),
      resourceAwsQuickSightDataSourceParameters d = Done (ty, Some p) ->
      p_S3Parameters p = None).
Proof.
  split.
  - intros d m rest Hd Hnil Hset.
    unfold resourceAwsQuickSightDataSourceParameters. rewrite Hd. simpl.
    apply dataSourceParametersOf_panics_on_s3; assumption.
  - intros d ty p. unfold resourceAwsQuickSightDataSourceParameters.
    destruct (d "parameters"); simpl; try discriminate.
    destruct items as [items|]; simpl; [|discriminate].
    destruct items as [|v _]; [discriminate|].
    destruct v; simpl; try discriminate.
    intros H. apply dataSourceParametersOf_result in H.
    destruct H as [fields [[= <-] [_ H]]]. exact H.
Qed.

Lemma parameters_panic_on_s3_witness :
  resourceAwsQuickSightDataSourceParameters (rawParameters [("s3", exampleS3)])
  = Panic.
Proof.
  apply (proj1 parameters_panic_on_s3 (rawParameters [("s3", exampleS3)])
           [("s3", exampleS3)] []).
  - reflexivity.
  - discriminate.
  - discriminate.
Defined.

(** X17: the type that the builder returns is the one of the last
    parameter group, in the order of the source, whose field it has set, and
    the empty string when it has set none or returns no parameters. *)
Theorem parameters_type_follows_last_group
    (d : RawData) (ty : option string) (p : option DataSourceParameters) :
  resourceAwsQuickSightDataSourceParameters d = Done (ty, p) ->
  ty = Some (match p with
             | Some fields => typeOfFields fields
             | None => ""
             end).
Proof.
  unfold resourceAwsQuickSightDataSourceParameters.
  assert (Hnone : Done (Some "", @None DataSourceParameters) = Done (ty, p) ->
                  ty = Some (match p with
                             | Some fields => typeOfFields fields
                             | None => ""
                             end)).
  { intros [= <- <-]. reflexivity. }
  destruct (d "parameters"); simpl; try discriminate; try exact Hnone.
  destruct items as [items|]; simpl; [|discriminate].
  destruct items as [|v _]; [exact Hnone|].
  destruct v; simpl; try discriminate.
  intros H. apply dataSourceParametersOf_result in H.
  destruct H as [fields [-> [-> _]]]. reflexivity.
Qed.

Lemma parameters_type_follows_last_group_witness :
  Some "TWITTER"
  = Some (match
            match resourceAwsQuickSightDataSourceParameters
                    (rawParameters [("twitter", exampleTwitter);
                                    ("athena", exampleAthena)]) with
            | Done (_, p) => p
            | Panic => None
            end
          with
          | Some fields => typeOfFields fields
          | None => ""
          end).
Proof.
  apply (parameters_type_follows_last_group
           (rawParameters [("twitter", exampleTwitter); ("athena", exampleAthena)])).
  reflexivity.
Defined.
